(** * twitter-timeline: the extraction chain of [TimelineFetcher]

    A shallow embedding of [src/extractors/twitter_parser.py],
    [src/extractors/utils_time.py], of [load_usernames] and [fetch_all]
    of [src/runner.py] and of the NDJSON writer of
    [src/outputs/exporters.py], with the properties of the
    specification stated over it.

    Conventions of the embedding.
    - Python [str] is [string]: a sequence of the code points below 256
      (Latin-1).  [\d], [\s], [\w], [str.strip], [str.lower] and
      [str.splitlines] are Python's on these code points.
    - Python [int] is [Z] (unbounded); [int(str)] has the interpreter's
      limit on the number of digits.
    - Python values whose type is not fixed by the code (what
      [json.loads] returns, what a record field holds) are [value].
    - An exception is a value of [exn]; code that can raise returns
      [result]; [try ... except Exception] is [try_except].
    - The network, the wall clock, the interpreter's string hash, the
      HTML parser, the date parser, the JSON decoder and the HTTP client
      are not code of this repository: they are parameters, collected in
      [Runtime] and [World]. *)

From Stdlib Require Import ZArith List String Ascii Bool Lia PrimFloat.
Import ListNotations.
Set Warnings "-register-all".
Local Open Scope string_scope.
Local Open Scope Z_scope.

(** ** Characters and strings *)

Module PyStr.

(** [\d]: the decimal digits; below 256 these are 0-9 only. *)
Definition is_digit (c : ascii) : bool :=
  let n := nat_of_ascii c in (48 <=? n)%nat && (n <=? 57)%nat.

(** [\s] and [str.isspace]: TAB..CR, FS..US, space, NEL (U+0085) and the
    no-break space (U+00A0). *)
Definition is_space (c : ascii) : bool :=
  let n := nat_of_ascii c in
  ((9 <=? n)%nat && (n <=? 13)%nat) || ((28 <=? n)%nat && (n <=? 32)%nat)
  || (n =? 133)%nat || (n =? 160)%nat.

Definition is_upper (c : ascii) : bool :=
  let n := nat_of_ascii c in (65 <=? n)%nat && (n <=? 90)%nat.

Definition is_lower (c : ascii) : bool :=
  let n := nat_of_ascii c in (97 <=? n)%nat && (n <=? 122)%nat.

(** The capital letters of the upper half, U+00C0..U+00DE without the
    multiplication sign U+00D7. *)
Definition is_upper_latin1 (c : ascii) : bool :=
  let n := nat_of_ascii c in
  (192 <=? n)%nat && (n <=? 222)%nat && negb (n =? 215)%nat.

(** The alphanumeric characters of the upper half ([str.isalnum]): the
    ordinal indicators, the micro sign, the superscript digits, the
    vulgar fractions and the letters U+00C0..U+00FF without the
    multiplication and division signs. *)
Definition is_alnum_latin1 (c : ascii) : bool :=
  let n := nat_of_ascii c in
  (n =? 170)%nat || (n =? 178)%nat || (n =? 179)%nat || (n =? 181)%nat
  || (n =? 185)%nat || (n =? 186)%nat
  || ((188 <=? n)%nat && (n <=? 190)%nat)
  || ((192 <=? n)%nat && negb (n =? 215)%nat && negb (n =? 247)%nat).

(** [\w]: alphanumeric characters and the underscore. *)
Definition is_word (c : ascii) : bool :=
  is_digit c || is_upper c || is_lower c || Ascii.eqb c "_"
  || is_alnum_latin1 c.

(** The class [[\d,\.]] of the count pattern. *)
Definition is_numchar (c : ascii) : bool :=
  is_digit c || Ascii.eqb c "," || Ascii.eqb c ".".

Definition lower_char (c : ascii) : ascii :=
  if is_upper c || is_upper_latin1 c
  then ascii_of_nat (nat_of_ascii c + 32) else c.

(** [s.lower()] *)
Fixpoint lower (s : string) : string :=
  match s with
  | EmptyString => EmptyString
  | String c s' => String (lower_char c) (lower s')
  end.

(** The longest prefix of [s] whose characters satisfy [p], and the rest:
    what a greedy [p*] consumes. *)
Fixpoint span (p : ascii -> bool) (s : string) : string * string :=
  match s with
  | EmptyString => (EmptyString, EmptyString)
  | String c s' =>
      if p c then let (a, b) := span p s' in (String c a, b)
      else (EmptyString, s)
  end.

Fixpoint drop_while (p : ascii -> bool) (s : string) : string :=
  match s with
  | EmptyString => EmptyString
  | String c s' => if p c then drop_while p s' else s
  end.

Fixpoint rev_acc (s acc : string) : string :=
  match s with
  | EmptyString => acc
  | String c s' => rev_acc s' (String c acc)
  end.

Definition rev (s : string) : string := rev_acc s EmptyString.

(** [s.lstrip(chars)] for a one-character [chars]. *)
Definition lstrip_char (c : ascii) (s : string) : string :=
  drop_while (Ascii.eqb c) s.

(** [s.rstrip(chars)] for a one-character [chars]. *)
Definition rstrip_char (c : ascii) (s : string) : string :=
  rev (drop_while (Ascii.eqb c) (rev s)).

(** [s.lstrip()], [s.rstrip()], [s.strip()] *)
Definition lstrip (s : string) : string := drop_while is_space s.
Definition rstrip (s : string) : string := rev (drop_while is_space (rev s)).
Definition strip (s : string) : string := rstrip (lstrip s).

(** [s.replace(c, "")] for a one-character [c]. *)
Fixpoint remove_char (c : ascii) (s : string) : string :=
  match s with
  | EmptyString => EmptyString
  | String d s' =>
      if Ascii.eqb c d then remove_char c s' else String d (remove_char c s')
  end.

Fixpoint forallb (p : ascii -> bool) (s : string) : bool :=
  match s with
  | EmptyString => true
  | String c s' => p c && forallb p s'
  end.

Definition is_empty (s : string) : bool :=
  match s with EmptyString => true | _ => false end.

(** [sub in s] *)
Fixpoint contains (sub s : string) : bool :=
  String.prefix sub s ||
  match s with
  | EmptyString => false
  | String _ s' => contains sub s'
  end.

Definition digit_val (c : ascii) : Z := Z.of_nat (nat_of_ascii c) - 48.

(** The number written by a string of decimal digits, most significant
    first, continuing from [acc]. *)
Fixpoint digits_value (acc : Z) (s : string) : Z :=
  match s with
  | EmptyString => acc
  | String c s' => digits_value (10 * acc + digit_val c) s'
  end.

(** Below this many digits the interpreter never applies its limit. *)
Definition max_str_digits_threshold : Z := 640.

(** The interpreter refuses to convert [digits] decimal digits when the
    limit [max_str_digits] is set (not 0) and exceeded. *)
Definition exceeds_limit (max_str_digits digits : Z) : bool :=
  (max_str_digits_threshold <? digits) && (0 <? max_str_digits)
  && (max_str_digits <? digits).

(** [int(s)] on the strings the parser passes to it, under the limit
    [max_str_digits] of the interpreter
    ([sys.get_int_max_str_digits()], 4300 unless changed, 0 for none).
    [None] is [ValueError].  Every digit counts towards the limit,
    leading zeros too.  Python also accepts a sign, surrounding blanks
    and underscores; the parser never passes such a string (see
    [count_group_int]), so they are outside this function's domain and
    reported as [None]. *)
Definition py_int (max_str_digits : Z) (s : string) : option Z :=
  if is_empty s then None
  else if forallb is_digit s then
    if exceeds_limit max_str_digits (Z.of_nat (String.length s)) then None
    else Some (digits_value 0 s)
  else None.

(** [str(n)] for an [int]. *)
Definition digit_char (d : Z) : ascii := ascii_of_nat (Z.to_nat d + 48).

Fixpoint pos_digits (fuel : nat) (n : Z) (acc : string) : string :=
  match fuel with
  | O => acc
  | S fuel' =>
      let acc' := String (digit_char (n mod 10)) acc in
      if n <? 10 then acc' else pos_digits fuel' (n / 10) acc'
  end.

Definition str_of_Z (n : Z) : string :=
  if n <? 0 then String "-" (pos_digits (S (Z.to_nat (Z.log2 (- n)))) (- n) "")
  else pos_digits (S (Z.to_nat (Z.log2 n))) n "".

End PyStr.

(** ** Python values, exceptions and results *)

(** A dynamically typed Python value: what [json.loads] can return and
    what a field of a record dictionary can hold.  A [dict] is its list
    of items in insertion order, keys distinct. *)
Inductive value : Type :=
| VNone
| VBool (b : bool)
| VInt (n : Z)
| VFloat (f : float)
| VStr (s : string)
| VList (l : list value)
| VDict (d : list (string * value)).

(** The exception classes that can reach the chain; all of them derive
    from [Exception]. *)
Inductive exn : Type :=
| HTTPError          (* httpx.HTTPError: transport error or non-2xx status *)
| InvalidURL         (* httpx.InvalidURL: the base URL is malformed *)
| InvalidProxy       (* raised by the client constructor on a bad proxy *)
| JSONDecodeError
| ParserRejectedMarkup (* bs4: html.parser gave up on the markup *)
| AttributeError
| TypeError
| ValueError.

Inductive result (A : Type) : Type :=
| Ok (a : A)
| Raise (e : exn).
Arguments Ok {A} a.
Arguments Raise {A} e.

Definition is_ok {A} (r : result A) : bool :=
  match r with Ok _ => true | Raise _ => false end.

(** The configuration errors of the specification's taxonomy. *)
Definition is_configuration_error (e : exn) : bool :=
  match e with InvalidURL | InvalidProxy => true | _ => false end.

(** [isinstance(e, httpx.HTTPError)], the retry predicate. *)
Definition is_http_error (e : exn) : bool :=
  match e with HTTPError => true | _ => false end.

Module Py.

(** [bool(v)] *)
Definition truthy (v : value) : bool :=
  match v with
  | VNone => false
  | VBool b => b
  | VInt n => negb (n =? 0)
  | VFloat f => negb (PrimFloat.eqb f PrimFloat.zero)
  | VStr s => negb (PyStr.is_empty s)
  | VList l => match l with [] => false | _ => true end
  | VDict d => match d with [] => false | _ => true end
  end.

(** [a or b] (both already evaluated; where the code relies on the
    short circuit for an effect the model spells it out). *)
Definition or (a b : value) : value := if truthy a then a else b.

Fixpoint assoc (k : string) (d : list (string * value)) : option value :=
  match d with
  | [] => None
  | (k', v) :: d' => if String.eqb k k' then Some v else assoc k d'
  end.

(** [d.get(k)] *)
Definition get (d : list (string * value)) (k : string) : value :=
  match assoc k d with Some v => v | None => VNone end.

(** [d.get(k, default)] *)
Definition get_default (d : list (string * value)) (k : string)
    (default : value) : value :=
  match assoc k d with Some v => v | None => default end.

(** [k in d] *)
Definition has_key (d : list (string * value)) (k : string) : bool :=
  match assoc k d with Some _ => true | None => false end.

(** [v.get(k)] on an arbitrary value: only a [dict] has the method. *)
Definition getattr_get (v : value) (k : string) : result value :=
  match v with
  | VDict d => Ok (get d k)
  | _ => Raise AttributeError
  end.

Fixpoint chars (s : string) : list value :=
  match s with
  | EmptyString => []
  | String c s' => VStr (String c EmptyString) :: chars s'
  end.

(** [iter(v)]: the sequence a [for] loop walks. *)
Definition iter (v : value) : result (list value) :=
  match v with
  | VList l => Ok l
  | VStr s => Ok (chars s)
  | VDict d => Ok (map (fun kv => VStr (fst kv)) d)
  | _ => Raise TypeError
  end.

(** [l[:n]] *)
Definition slice_to {A} (l : list A) (n : Z) : list A :=
  if 0 <=? n then firstn (Z.to_nat n) l
  else firstn (List.length l - Z.to_nat (- n)) l.

(** [len(l) >= n] *)
Definition len_ge {A} (l : list A) (n : Z) : bool :=
  n <=? Z.of_nat (List.length l).

End Py.

(** ** The two regular expressions of the HTML strategy *)

Module Re.
Import PyStr.

Fixpoint strip_prefix (p s : string) : option string :=
  match p, s with
  | EmptyString, _ => Some s
  | String a p', String b s' => if Ascii.eqb a b then strip_prefix p' s' else None
  | String _ _, EmptyString => None
  end.

(** A match of [/status/(\d+)] that starts at the head of [s]: the
    literal, then the greedy run of digits, which must not be empty. *)
Definition status_here (s : string) : option string :=
  match strip_prefix "/status/" s with
  | Some rest =>
      let (g, _) := span is_digit rest in
      if is_empty g then None else Some g
  | None => None
  end.

(** [re.search(r"/status/(\d+)", s)]: group 1 of the leftmost match. *)
Fixpoint search_status (s : string) : option string :=
  match status_here s with
  | Some g => Some g
  | None =>
      match s with
      | EmptyString => None
      | String _ s' => search_status s'
      end
  end.

(** A match of the count pattern that starts at the head of [s]: group 1
    is a digit and the greedy run of digits, commas and periods after it,
    then comes white space, then group 2, a greedy run of word characters.
    Each greedy run is followed by a character outside its class, and
    the classes [[\d,\.]], [\s] and [\w] hand over to one another only
    there ([\s] is disjoint from the other two), so giving characters
    back never turns a failure into a match: the greedy runs decide. *)
Definition count_here (s : string) : option (string * string) :=
  match s with
  | EmptyString => None
  | String c _ =>
      if is_digit c then
        let (g1, r1) := span is_numchar s in
        let (ws, r2) := span is_space r1 in
        if is_empty ws then None
        else
          let (g2, _) := span is_word r2 in
          if is_empty g2 then None else Some (g1, g2)
      else None
  end.

(** [re.search] with the count pattern: groups 1 and 2 of the leftmost
    match. *)
Fixpoint search_count (s : string) : option (string * string) :=
  match count_here s with
  | Some m => Some m
  | None =>
      match s with
      | EmptyString => None
      | String _ s' => search_count s'
      end
  end.

End Re.

(** ** The document as the selectors see it *)

(** A node of the parsed document: its attributes and the text that the
    [get_text] call made on it returns. *)
Record tag : Type := {
  attrs : list (string * string);
  get_text : string
}.

Fixpoint attr_lookup (k : string) (l : list (string * string)) : option string :=
  match l with
  | [] => None
  | (k', v) :: l' => if String.eqb k k' then Some v else attr_lookup k l'
  end.

(** [node.get(k)] as a Python value. *)
Definition tag_get (t : tag) (k : string) : value :=
  match attr_lookup k (attrs t) with
  | Some v => VStr v
  | None => VNone
  end.

(** One [div.timeline > div.timeline-item] with the results of the
    selectors the parser runs inside it. *)
Record timeline_item : Type := {
  tweet_link : option tag;          (* select_one("a.tweet-link") *)
  tweet_content : option tag;       (* select_one(".tweet-content") *)
  tweet_date : option tag;          (* select_one("span.tweet-date > a") *)
  tweet_stats : list tag;           (* select("div.tweet-stats > span") *)
  attachment_images : list tag;     (* select(".attachments .attachment.image img") *)
  attachment_videos : list tag      (* select(".attachments .attachment.video") *)
}.

(** The parsed page with the results of the page-level selectors. *)
Record soup : Type := {
  timeline : list timeline_item;    (* select("div.timeline > div.timeline-item") *)
  profile_card_avatar : option tag; (* select_one("a.profile-card-avatar img") *)
  profile_card_fullname : option tag; (* select_one("a.profile-card-fullname") *)
  bio_icon_verified : option tag;   (* select_one("span.profile-bio .icon-verified") *)
  card_icon_verified : option tag   (* select_one(".profile-card .icon-verified") *)
}.

(** ** Records *)

Record Author : Type := {
  rest_id : value;
  name : value;
  screen_name : value;
  avatar : value;
  blue_verified : value
}.

(** The record dictionary every strategy builds. *)
Record Post : Type := {
  tweet_id : value;
  created_at : value;
  text : value;
  lang : value;
  views : value;
  favorites : value;
  replies : value;
  retweets : value;
  quotes : value;
  bookmarks : value;
  conversation_id : value;
  media : value;
  author : Author
}.

(** The counters a timeline item accumulates while its stat nodes are
    scanned; [bookmarks] and [views] stay [None] in the source. *)
Record Stats : Type := {
  st_replies : Z;
  st_retweets : Z;
  st_quotes : Z;
  st_favorites : Z
}.

Definition stats0 : Stats :=
  {| st_replies := 0; st_retweets := 0; st_quotes := 0; st_favorites := 0 |}.

Definition is_some {A} (o : option A) : bool :=
  match o with Some _ => true | None => false end.

Definition opt_value (o : option string) : value :=
  match o with Some s => VStr s | None => VNone end.

(** ** The fetcher *)

(** The [TimelineFetcher] dataclass. *)
Record TimelineFetcher : Type := {
  nitter_base : string;
  timeout_seconds : float;
  proxy : option string;
  max_posts : Z
}.

(** The interpreter and the libraries as one process sees them; none of
    it is code of this repository. *)
Record Runtime : Type := {
  BeautifulSoup : string -> result soup;     (* bs4, with "html.parser" *)
  int_max_str_digits : Z;                    (* sys.get_int_max_str_digits() *)
  json_loads : string -> result value;       (* json.loads *)
  datetime : Type;
  parser_parse : string -> result datetime;  (* dateutil.parser.parse *)
  tzinfo : datetime -> bool;                 (* dt.tzinfo is set *)
  replace_tzinfo_utc : datetime -> datetime;
  astimezone_utc_isoformat : datetime -> result string;
  hash : string -> Z;                        (* builtin hash of a str *)
  repr : value -> string;                    (* str() of float, list, dict *)
  AsyncClient : option string -> result unit (* httpx.AsyncClient(proxies=...) *)
}.

(** What is outside the process during one run.  [clock k] is what
    [now_utc_iso()] returns when it is called during the [k]-th iteration
    of the running loop.  [net n url] is the outcome of the [n]-th GET of
    the run when it asks for [url]: the body of a 2xx response, or the
    exception raised by [client.get] or [raise_for_status]. *)
Record World : Type := {
  clock : nat -> string;
  net : nat -> string -> result string
}.

Section TimelineFetcher.

Variable self : TimelineFetcher.
Variable rt : Runtime.
Variable world : World.

(** *** utils_time.py *)

Definition now_utc_iso (k : nat) : string := clock world k.

(** [to_iso8601(dt_str)], called during iteration [k].  A truthy argument
    that is not a string makes [parser.parse] raise, which the function
    catches like any other [Exception]. *)
Definition to_iso8601 (k : nat) (dt_str : value) : string :=
  if Py.truthy dt_str then
    let attempt :=
      match dt_str with
      | VStr s =>
          match parser_parse rt s with
          | Ok dt =>
              let dt := if tzinfo rt dt then dt else replace_tzinfo_utc rt dt in
              astimezone_utc_isoformat rt dt
          | Raise e => Raise e
          end
      | _ => Raise TypeError
      end in
    match attempt with
    | Ok iso => iso
    | Raise _ => now_utc_iso k
    end
  else now_utc_iso k.

(** [str(v)].  The code applies it to a value that [json.loads]
    returned; the decoder builds its integers with [int], so none of
    them has more digits than [str] converts. *)
Definition py_str (v : value) : string :=
  match v with
  | VNone => "None"
  | VBool true => "True"
  | VBool false => "False"
  | VInt n => PyStr.str_of_Z n
  | VStr s => s
  | _ => repr rt v
  end.

(** *** _parse_nitter_html *)

(** Lines 93-98: the status id of the item's link. *)
Definition item_sid (item : timeline_item) : value :=
  match tweet_link item with
  | Some link =>
      match tag_get link "href" with
      | VStr href =>
          if PyStr.is_empty href then VNone
          else opt_value (Re.search_status href)
      | _ => VNone
      end
  | None => VNone
  end.

(** Lines 101-102. *)
Definition item_text (item : timeline_item) : value :=
  match tweet_content item with
  | Some content => VStr (get_text content)
  | None => VNone
  end.

(** Line 119: [s.get("title") or s.get_text("", strip=True)]. *)
Definition stat_label (s : tag) : value :=
  Py.or (tag_get s "title") (VStr (get_text s)).

(** Line 126: [int(group1.replace(",", "").replace(".", ""))]. *)
Definition count_group_int (g1 : string) : result Z :=
  match PyStr.py_int (int_max_str_digits rt)
          (PyStr.remove_char "." (PyStr.remove_char "," g1)) with
  | Some n => Ok n
  | None => Raise ValueError
  end.

(** Lines 127-135: the label word decides which counter is written. *)
Definition classify (kind : string) (val : Z) (stats : Stats) : Stats :=
  if PyStr.contains "like" kind then
    {| st_replies := st_replies stats; st_retweets := st_retweets stats;
       st_quotes := st_quotes stats; st_favorites := val |}
  else if PyStr.contains "retweet" kind then
    {| st_replies := st_replies stats; st_retweets := val;
       st_quotes := st_quotes stats; st_favorites := st_favorites stats |}
  else if PyStr.contains "repl" kind then
    {| st_replies := val; st_retweets := st_retweets stats;
       st_quotes := st_quotes stats; st_favorites := st_favorites stats |}
  else if PyStr.contains "quote" kind then
    {| st_replies := st_replies stats; st_retweets := st_retweets stats;
       st_quotes := val; st_favorites := st_favorites stats |}
  else stats.

(** One iteration of the loop of lines 118-135. *)
Definition stat_step (stats : Stats) (s : tag) : result Stats :=
  match stat_label s with
  | VStr label =>
      if PyStr.is_empty label then Ok stats
      else
        match Re.search_count label with
        | None => Ok stats
        | Some (g1, g2) =>
            match count_group_int g1 with
            | Ok val => Ok (classify (PyStr.lower g2) val stats)
            | Raise e => Raise e
            end
        end
  | _ => Ok stats
  end.

Fixpoint stat_loop (stats : Stats) (spans : list tag) : result Stats :=
  match spans with
  | [] => Ok stats
  | s :: spans' =>
      match stat_step stats s with
      | Ok stats' => stat_loop stats' spans'
      | Raise e => Raise e
      end
  end.

Definition media_entry (type url : string) : value :=
  VDict [("type", VStr type); ("url", VStr url)].

(** Lines 138-145. *)
Definition item_media (item : timeline_item) : list value :=
  flat_map (fun img =>
              match tag_get img "src" with
              | VStr src => if PyStr.is_empty src then [] else [media_entry "photo" src]
              | _ => []
              end) (attachment_images item)
  ++
  flat_map (fun video =>
              match tag_get video "data-poster" with
              | VStr poster =>
                  if PyStr.is_empty poster then [] else [media_entry "video" poster]
              | _ => []
              end) (attachment_videos item).

(** Lines 148-159: the author block, read from the page, not the item. *)
Definition page_author (page : soup) (screen_name : string) : Author :=
  {| rest_id := VNone;
     name := match profile_card_fullname page with
             | Some display => VStr (get_text display)
             | None => VStr screen_name
             end;
     screen_name := VStr screen_name;
     avatar := match profile_card_avatar page with
               | Some a => if Py.truthy (tag_get a "src") then tag_get a "src" else VNone
               | None => VNone
               end;
     blue_verified :=
       VBool (is_some (bio_icon_verified page) || is_some (card_icon_verified page)) |}.

(** The body of the loop of lines 91-175 for the [k]-th item: the record
    [obj], or the exception that escapes the body. *)
Definition html_item (page : soup) (screen_name : string) (k : nat)
    (item : timeline_item) : result Post :=
  let sid := item_sid item in
  let text := item_text item in
  let created_at :=
    match tweet_date item with
    | Some date_node => tag_get date_node "title"
    | None => VNone
    end in
  let created_at_iso :=
    if Py.truthy created_at then VStr (to_iso8601 k created_at) else VNone in
  match stat_loop stats0 (tweet_stats item) with
  | Raise e => Raise e
  | Ok stats =>
      Ok {| tweet_id := sid;
            created_at := Py.or created_at created_at_iso;
            text := text;
            lang := VNone;
            views := VNone;
            favorites := VInt (st_favorites stats);
            replies := VInt (st_replies stats);
            retweets := VInt (st_retweets stats);
            quotes := VInt (st_quotes stats);
            bookmarks := VNone;
            conversation_id := sid;
            media := VList (item_media item);
            author := page_author page screen_name |}
  end.

(** The loop of lines 91-179, with its [break]. *)
Fixpoint html_loop (page : soup) (screen_name : string) (k : nat)
    (items : list timeline_item) (results : list Post) : result (list Post) :=
  match items with
  | [] => Ok results
  | item :: items' =>
      match html_item page screen_name k item with
      | Raise e => Raise e
      | Ok obj =>
          let results :=
            if Py.truthy (tweet_id obj) || Py.truthy (text obj)
            then (results ++ [obj])%list else results in
          if Py.len_ge results (max_posts self) then Ok results
          else html_loop page screen_name (S k) items' results
      end
  end.

Definition _parse_nitter_html (html : string) (screen_name : string)
    : result (list Post) :=
  match BeautifulSoup rt html with
  | Raise e => Raise e
  | Ok page => html_loop page screen_name 0 (timeline page) []
  end.

(** *** _parse_nitter_json *)

(** Lines 185-190: the sequence the loop will walk, not yet iterated. *)
Definition json_items (data : value) : value :=
  match data with
  | VDict d =>
      if Py.has_key d "statuses" then Py.or (Py.get d "statuses") (VList [])
      else VList []
  | VList l => VList l
  | _ => VList []
  end.

(** Line 193. *)
Definition json_tid (d : list (string * value)) : value :=
  match Py.get d "id" with
  | VNone => VNone
  | v => VStr (py_str v)
  end.

(** Line 197: the conditional expression binds weaker than [or], so the
    field is [(created_at or to_iso8601(created_at)) if created_at else
    None], and [or] evaluates its right operand only when the left one is
    falsy. *)
Definition json_created_at (k : nat) (created_at : value) : value :=
  if Py.truthy created_at then
    (if Py.truthy created_at then created_at
     else VStr (to_iso8601 k created_at))
  else VNone.

(** The body of the loop of lines 192-216 for the [k]-th element [tw]:
    the record [obj], or the exception that escapes the body.  [tw.get]
    exists only on a [dict], and so does [.get] on the value of
    [tw.get("user", {})]. *)
Definition json_item (screen_name : string) (k : nat) (tw : value)
    : result Post :=
  match tw with
  | VDict d =>
      let tid := json_tid d in
      let created_at := Py.or (Py.get d "date") (Py.get d "created_at") in
      match Py.get_default d "user" (VDict []) with
      | VDict user =>
          Ok {| tweet_id := tid;
                created_at := json_created_at k created_at;
                text := Py.get d "text";
                lang := Py.get d "lang";
                views := Py.get d "views";
                favorites :=
                  Py.or (Py.or (Py.get d "likes") (Py.get d "favorites")) (VInt 0);
                replies := Py.or (Py.get d "replies") (VInt 0);
                retweets := Py.or (Py.get d "retweets") (VInt 0);
                quotes := Py.or (Py.get d "quotes") (VInt 0);
                bookmarks := Py.get d "bookmarks";
                conversation_id := Py.or (Py.get d "conversation_id") tid;
                media := Py.or (Py.get d "media") (VList []);
                author :=
                  {| rest_id := Py.get user "id";
                     name := Py.or (Py.get user "name") (VStr screen_name);
                     screen_name :=
                       Py.or (Py.get user "screen_name") (VStr screen_name);
                     avatar := Py.get user "profile_image_url";
                     blue_verified := VBool (Py.truthy (Py.get user "verified")) |} |}
      | _ => Raise AttributeError
      end
  | _ => Raise AttributeError
  end.

(** The loop of lines 192-218, with its [break]. *)
Fixpoint json_loop (screen_name : string) (k : nat) (items : list value)
    (results : list Post) : result (list Post) :=
  match items with
  | [] => Ok results
  | tw :: items' =>
      match json_item screen_name k tw with
      | Raise e => Raise e
      | Ok obj =>
          let results := (results ++ [obj])%list in
          if Py.len_ge results (max_posts self) then Ok results
          else json_loop screen_name (S k) items' results
      end
  end.

Definition _parse_nitter_json (data : value) (screen_name : string)
    : result (list Post) :=
  match Py.iter (json_items data) with
  | Raise e => Raise e
  | Ok items => json_loop screen_name 0 items []
  end.

(** *** _synthetic_posts *)

(** Line 223. *)
Definition base_id (screen_name : string) : Z :=
  Z.abs (hash rt screen_name) mod 10000000000.

(** The body of the loop of lines 225-248. *)
Definition synthetic_obj (screen_name : string) (i : nat) : Post :=
  let iz := Z.of_nat i in
  let tid := VStr (PyStr.str_of_Z (base_id screen_name + iz)) in
  {| tweet_id := tid;
     created_at := VStr (to_iso8601 i VNone);
     text := VStr ("SYNTHETIC: Hello from @" ++ screen_name ++ " #" ++ PyStr.str_of_Z iz);
     lang := VStr "en";
     views := VStr (PyStr.str_of_Z (1000 + iz * 7));
     favorites := VInt (10 + iz);
     replies := VInt (iz / 2);
     retweets := VInt (iz / 3);
     quotes := VInt (iz / 5);
     bookmarks := VNone;
     conversation_id := tid;
     media := VList [];
     author :=
       {| rest_id := VNone;
          name := VStr screen_name;
          screen_name := VStr screen_name;
          avatar := VNone;
          blue_verified := VBool false |} |}.

(** [range(min(self.max_posts, 10))] *)
Definition synthetic_range : list nat :=
  seq 0 (Z.to_nat (Z.min (max_posts self) 10)).

Definition _synthetic_posts (screen_name : string) : list Post :=
  map (synthetic_obj screen_name) synthetic_range.

(** *** The network and the chain *)

Inductive strategy : Type := Html | Json | Synthetic.

(** What a run of the chain does that an observer can see: a GET issued
    on behalf of a strategy, a strategy's parser being run, and the
    synthetic generator being run. *)
Inductive event : Type :=
| Fetch (s : strategy) (url : string)
| Parse (s : strategy)
| Generate.

Definition strategy_of (e : event) : strategy :=
  match e with
  | Fetch s _ => s
  | Parse s => s
  | Generate => Synthetic
  end.

(** The state threaded through a run: how many GETs were issued so far,
    and the events so far, oldest first. *)
Record state : Type := {
  requests : nat;
  trace : list event
}.

(** Lines 27-38, [self._client()]: the client, or the exception its
    constructor raises (a proxy the HTTP library rejects).  Closing the
    client at the end of [async with] is taken not to raise. *)
Definition _client : result unit :=
  match proxy self with
  | Some p => if PyStr.is_empty p then AsyncClient rt None else AsyncClient rt (Some p)
  | None => AsyncClient rt None
  end.

(** Computations that read and write the state and may raise. *)
Definition M (A : Type) : Type := state -> result A * state.

Definition ret {A} (a : A) : M A := fun st => (Ok a, st).

Definition bind {A B} (m : M A) (k : A -> M B) : M B :=
  fun st =>
    match m st with
    | (Ok a, st') => k a st'
    | (Raise e, st') => (Raise e, st')
    end.

Definition lift {A} (r : result A) : M A := fun st => (r, st).

Definition emit (e : event) : M unit :=
  fun st => (Ok tt, {| requests := requests st; trace := trace st ++ [e] |}).

(** [try: m except Exception: h] *)
Definition try_except {A} (m : M A) (h : exn -> M A) : M A :=
  fun st =>
    match m st with
    | (Ok a, st') => (Ok a, st')
    | (Raise e, st') => h e st'
    end.

Notation "x <- m ;; k" := (bind m (fun x => k))
  (at level 61, m at next level, right associativity).
Notation "m ;;; k" := (bind m (fun _ => k))
  (at level 61, right associativity).

(** Lines 47-49: one GET. *)
Definition get_once (s : strategy) (url : string) : M string :=
  fun st =>
    (net world (requests st) url,
     {| requests := S (requests st); trace := trace st ++ [Fetch s url] |}).

(** The [@retry] decorator of lines 40-45: an attempt that raises an
    [httpx.HTTPError] is repeated while attempts are left; any other
    exception, and the last [HTTPError], is re-raised.  The waits between
    attempts take time and change nothing else. *)
Fixpoint retrying (retries_left : nat) (s : strategy) (url : string) : M string :=
  try_except (get_once s url)
    (fun e =>
       match retries_left with
       | S n => if is_http_error e then retrying n s url else lift (Raise e)
       | O => lift (Raise e)
       end).

(** [stop_after_attempt(3)]: the first attempt and two more. *)
Definition _get_html (s : strategy) (url : string) : M string :=
  retrying 2 s url.

Definition nonempty {A} (l : list A) : bool :=
  match l with [] => false | _ => true end.

(** Line 58. *)
Definition clean_handle (screen_name : string) : string :=
  PyStr.strip (PyStr.lstrip_char "@" screen_name).

Definition html_url (screen_name : string) : string :=
  PyStr.rstrip_char "/" (nitter_base self) ++ "/" ++ screen_name.

Definition json_url (screen_name : string) : string :=
  PyStr.rstrip_char "/" (nitter_base self) ++ "/" ++ screen_name ++ "?_format=json".

(** Lines 69-77, strategy 2 inside its own [try]: [Some batch] when the
    function returns from here, [None] when control falls out of the
    [try] statement. *)
Definition json_strategy (screen_name : string) : M (option (list Post)) :=
  try_except
    (txt <- _get_html Json (json_url screen_name) ;;
     data <- lift (json_loads rt txt) ;;
     emit (Parse Json) ;;;
     candidate <- lift (_parse_nitter_json data screen_name) ;;
     if nonempty candidate then ret (Some (Py.slice_to candidate (max_posts self)))
     else ret None)
    (fun _ => ret None).

(** Lines 60-77, the body of the outer [try]. *)
Definition network_strategies (screen_name : string) : M (option (list Post)) :=
  lift _client ;;;
  html <- _get_html Html (html_url screen_name) ;;
  emit (Parse Html) ;;;
  items <- lift (_parse_nitter_html html screen_name) ;;
  if nonempty items then ret (Some (Py.slice_to items (max_posts self)))
  else json_strategy screen_name.

(** Lines 58-83. *)
Definition fetch_username (screen_name : string) : M (list Post) :=
  let screen_name := clean_handle screen_name in
  returned <- try_except (network_strategies screen_name) (fun _ => ret None) ;;
  match returned with
  | Some batch => ret batch
  | None =>
      emit Generate ;;;
      ret (_synthetic_posts screen_name)
  end.

Definition state0 : state := {| requests := 0; trace := [] |}.

End TimelineFetcher.

(** ** Properties of records *)



(** The record without its timestamp. *)
Definition erase_created_at (p : Post) : Post :=
  {| tweet_id := tweet_id p; created_at := VNone; text := text p;
     lang := lang p; views := views p; favorites := favorites p;
     replies := replies p; retweets := retweets p; quotes := quotes p;
     bookmarks := bookmarks p; conversation_id := conversation_id p;
     media := media p; author := author p |}.



(** The elements the JSON loop walks for a decoded document. *)
Definition json_elements (data : value) : list value :=
  match Py.iter (json_items data) with
  | Ok items => items
  | Raise _ => []
  end.




(** An element the JSON loop can map: an object whose [user] entry is
    absent or itself an object. *)
Definition item_wellshaped (tw : value) : bool :=
  match tw with
  | VDict d =>
      match Py.get_default d "user" (VDict []) with
      | VDict _ => true
      | _ => false
      end
  | _ => false
  end.

(** How many elements the JSON loop visits at most: the [break] is tested
    after the append, so the first element is always visited. *)
Definition json_cap (self : TimelineFetcher) : nat :=
  Z.to_nat (Z.max 1 (max_posts self)).

(** ** The admission gate of the coordinator (runner.py, lines 87-99)

    [fetch_all] creates one [_task] per handle and gathers them; each
    task is [async with sem: try: await fetch_username(name) ...].  The
    tasks interleave at their suspension points, so the coordinator is a
    transition system: a task waits at the semaphore, runs its chain
    (issuing GETs one at a time), and leaves the [async with] block. *)

Module Coordinator.

Inductive phase : Type :=
| Waiting                       (* before [async with sem] is entered *)
| Running (in_flight : bool)    (* inside the block; a GET is awaited or not *)
| Finished.                     (* the block was left *)

Record sched : Type := {
  sem : Z;                      (* the semaphore's counter *)
  tasks : list phase            (* one per handle, in [usernames] order *)
}.

(** [asyncio.Semaphore(n)] and [gather] over the handles. *)
Definition init (concurrency : Z) (usernames : list string) : sched :=
  {| sem := concurrency; tasks := map (fun _ => Waiting) usernames |}.

Fixpoint set_nth (i : nat) (p : phase) (l : list phase) : list phase :=
  match l, i with
  | [], _ => []
  | _ :: l', O => p :: l'
  | q :: l', S i' => q :: set_nth i' p l'
  end.

Inductive step : sched -> sched -> Prop :=
| step_acquire s i :          (* [sem.acquire()] returns: counter was positive *)
    nth_error (tasks s) i = Some Waiting ->
    0 < sem s ->
    step s {| sem := sem s - 1; tasks := set_nth i (Running false) (tasks s) |}
| step_get s i :              (* the chain awaits [client.get] *)
    nth_error (tasks s) i = Some (Running false) ->
    step s {| sem := sem s; tasks := set_nth i (Running true) (tasks s) |}
| step_got s i :              (* the GET completes or raises *)
    nth_error (tasks s) i = Some (Running true) ->
    step s {| sem := sem s; tasks := set_nth i (Running false) (tasks s) |}
| step_release s i :          (* the chain returned or raised; [sem.release()] *)
    nth_error (tasks s) i = Some (Running false) ->
    step s {| sem := sem s + 1; tasks := set_nth i Finished (tasks s) |}.

Inductive reachable (s0 : sched) : sched -> Prop :=
| reach_init : reachable s0 s0
| reach_step s s' : reachable s0 s -> step s s' -> reachable s0 s'.

Definition is_running (p : phase) : bool :=
  match p with Running _ => true | _ => false end.

Definition is_fetching (p : phase) : bool :=
  match p with Running true => true | _ => false end.

Fixpoint count (f : phase -> bool) (l : list phase) : Z :=
  match l with
  | [] => 0
  | p :: l' => (if f p then 1 else 0) + count f l'
  end.

Definition weight (f : phase -> bool) (p : phase) : Z := if f p then 1 else 0.

(** Chains between acquire and release, and GETs in flight. *)
Definition chains_running (s : sched) : Z := count is_running (tasks s).
Definition fetches_in_flight (s : sched) : Z := count is_fetching (tasks s).

End Coordinator.

(** The label words the classifier knows. *)
Definition known_kind (kind : string) : bool :=
  PyStr.contains "like" kind || PyStr.contains "retweet" kind ||
  PyStr.contains "repl" kind || PyStr.contains "quote" kind.


(** What [fetch_username] returns, by the outcome of the network
    strategies: their batch when they returned one, the synthetic batch
    when they fell through or raised. *)
Definition chain_outcome (self : TimelineFetcher) (rt : Runtime) (world : World)
    (screen_name : string) (st : state) : list Post :=
  match fst (network_strategies self rt world (clean_handle screen_name) st) with
  | Ok (Some batch) => batch
  | Ok None | Raise _ => _synthetic_posts self rt world (clean_handle screen_name)
  end.

(** ** Fixtures: concrete pages, runtimes and worlds *)

Module Sample.

Definition text_node (t : string) : tag := {| attrs := []; get_text := t |}.

(** The item of the specification's scenario: status link
    [/alice/status/42], body "hello world", one stat "5 Likes", no date. *)
Definition item_42 : timeline_item :=
  {| tweet_link := Some {| attrs := [("href", "/alice/status/42#m")]; get_text := "" |};
     tweet_content := Some (text_node "hello world");
     tweet_date := None;
     tweet_stats := [text_node "5 Likes"];
     attachment_images := [];
     attachment_videos := [] |}.

(** The same item with a date node. *)
Definition item_dated : timeline_item :=
  {| tweet_link := tweet_link item_42;
     tweet_content := tweet_content item_42;
     tweet_date := Some {| attrs := [("title", "Jan 1, 2024 12:00 PM UTC")]; get_text := "Jan 1" |};
     tweet_stats := [{| attrs := [("title", "1.234 Likes")]; get_text := "" |};
                     text_node "12,345 Retweets"; text_node "7 Views"];
     attachment_images := [];
     attachment_videos := [] |}.

(** A run of [n] nines, and an item whose one stat label counts with
    4301 digits. *)
Fixpoint nines (n : nat) : string :=
  match n with
  | O => EmptyString
  | S n' => String "9" (nines n')
  end.

Definition long_label : string := nines 4301 ++ " Likes".

Definition item_long_count : timeline_item :=
  {| tweet_link := tweet_link item_42;
     tweet_content := tweet_content item_42;
     tweet_date := None;
     tweet_stats := [text_node long_label];
     attachment_images := [];
     attachment_videos := [] |}.

Definition page_of (items : list timeline_item) : soup :=
  {| timeline := items;
     profile_card_avatar := None;
     profile_card_fullname := Some (text_node "Alice");
     bio_icon_verified := None;
     card_icon_verified := None |}.

(** A stand-in for the salted string hash: the key is the salt. *)
Fixpoint toy_hash (key : Z) (s : string) : Z :=
  match s with
  | EmptyString => key
  | String c s' => toy_hash (key * 31 + Z.of_nat (nat_of_ascii c)) s'
  end.

Definition runtime_keyed (key : Z) : Runtime :=
  {| BeautifulSoup := fun html =>
       if String.eqb html "<one item>" then Ok (page_of [item_42])
       else if String.eqb html "<dated item>" then Ok (page_of [item_dated])
       else if String.eqb html "<long count>" then Ok (page_of [item_long_count])
       else if String.eqb html "<![x]>" then Raise ParserRejectedMarkup
       else Ok (page_of []);
     int_max_str_digits := 4300;
     json_loads := fun txt =>
       if String.eqb txt "[1]" then Ok (VList [VInt 1])
       else if String.eqb txt "[]" then Ok (VList [])
       else Raise JSONDecodeError;
     datetime := string;
     parser_parse := fun s =>
       if String.eqb s "Jan 1, 2024 12:00 PM UTC" then Ok "2024-01-01T12:00:00+00:00"
       else Raise ValueError;
     tzinfo := fun _ => true;
     replace_tzinfo_utc := fun dt => dt;
     astimezone_utc_isoformat := fun dt => Ok dt;
     hash := toy_hash key;
     repr := fun _ => "<repr>";
     AsyncClient := fun p =>
       match p with
       | Some "not a proxy" => Raise InvalidProxy
       | _ => Ok tt
       end |}.

Definition runtime : Runtime := runtime_keyed 7.

Definition fetcher : TimelineFetcher :=
  {| nitter_base := "https://nitter.net/"; timeout_seconds := 20;
     proxy := None; max_posts := 50 |}.

Definition fetcher_bad_proxy : TimelineFetcher :=
  {| nitter_base := "https://nitter.net/"; timeout_seconds := 20;
     proxy := Some "not a proxy"; max_posts := 50 |}.

Definition fetcher_bad_base : TimelineFetcher :=
  {| nitter_base := "ht!tp://"; timeout_seconds := 20;
     proxy := None; max_posts := 50 |}.

Definition noon : nat -> string := fun _ => "2026-01-01T12:00:00+00:00".

(** Every GET fails at the transport level. *)
Definition offline : World :=
  {| clock := noon; net := fun _ _ => Raise HTTPError |}.

(** Every GET is refused because the URL is malformed. *)
Definition bad_url : World :=
  {| clock := noon; net := fun _ _ => Raise InvalidURL |}.

(** The first GET fails, later ones return the one-item page. *)
Definition flaky : World :=
  {| clock := noon;
     net := fun n _ => match n with O => Raise HTTPError | _ => Ok "<one item>" end |}.

(** The record the HTML strategy builds from [item_42] for handle alice. *)
Definition post_42 : Post :=
  {| tweet_id := VStr "42";
     created_at := VNone;
     text := VStr "hello world";
     lang := VNone;
     views := VNone;
     favorites := VInt 5;
     replies := VInt 0;
     retweets := VInt 0;
     quotes := VInt 0;
     bookmarks := VNone;
     conversation_id := VStr "42";
     media := VList [];
     author :=
       {| rest_id := VNone;
          name := VStr "Alice";
          screen_name := VStr "alice";
          avatar := VNone;
          blue_verified := VBool false |} |}.

End Sample.

(** The [created_at] fields of a parse result. *)
Definition created_ats (r : result (list Post)) : list value :=
  match r with
  | Ok batch => map created_at batch
  | Raise _ => []
  end.

(** The run ended with an exception instead of a batch. *)
Definition raises_past_boundary {A} (run : result A * state) : Prop :=
  exists e, fst run = Raise e.

(** ** More of the parsers' vocabulary *)

(** Line 176 of twitter_parser.py: the test that keeps a record. *)
Definition kept (obj : Post) : bool :=
  Py.truthy (tweet_id obj) || Py.truthy (text obj).

(** [visits rt world page screen_name k items objs]: [objs] are the
    records the loop body builds for a prefix of [items], in order, the
    first of them during iteration [k]. *)
Inductive visits (rt : Runtime) (world : World) (page : soup) (screen_name : string)
    : nat -> list timeline_item -> list Post -> Prop :=
| visits_stop k items :
    visits rt world page screen_name k items []
| visits_next k item items obj objs :
    html_item rt world page screen_name k item = Ok obj ->
    visits rt world page screen_name (S k) items objs ->
    visits rt world page screen_name k (item :: items) (obj :: objs).

(** A tweet id as the HTML strategy can produce it: [None], or a
    non-empty string of digits. *)
Definition id_or_none (v : value) : bool :=
  match v with
  | VNone => true
  | VStr g => negb (PyStr.is_empty g) && PyStr.forallb PyStr.is_digit g
  | _ => false
  end.

Definition starts_with_space (s : string) : bool :=
  match s with
  | EmptyString => false
  | String c _ => PyStr.is_space c
  end.

Definition ends_with_space (s : string) : bool :=
  starts_with_space (PyStr.rev s).

Definition starts_with_at (s : string) : bool :=
  match s with
  | EmptyString => false
  | String c _ => Ascii.eqb "@" c
  end.

(** No character of [s] is white space. *)
Definition blank_free (s : string) : bool :=
  PyStr.forallb (fun c => negb (PyStr.is_space c)) s.

(** The events of a trace that are GETs. *)
Definition is_fetch (e : event) : bool :=
  match e with Fetch _ _ => true | _ => false end.

(** ** runner.py: the list of handles *)

Module Runner.

(** [s.split(sep)] for a one-character [sep]: at least one piece. *)
Fixpoint split_on (sep : ascii) (s : string) : list string :=
  match s with
  | EmptyString => [EmptyString]
  | String c s' =>
      if Ascii.eqb sep c then EmptyString :: split_on sep s'
      else
        match split_on sep s' with
        | p :: ps => String c p :: ps
        | [] => [String c EmptyString]
        end
  end.

(** The line boundaries of [str.splitlines]: LF, VT, FF, CR, FS, GS, RS
    and NEL (U+0085). *)
Definition is_linebreak (c : ascii) : bool :=
  let n := nat_of_ascii c in
  ((10 <=? n)%nat && (n <=? 13)%nat) || ((28 <=? n)%nat && (n <=? 30)%nat)
  || (n =? 133)%nat.

(** [s.splitlines()]: CR LF is one boundary, and a boundary at the very
    end opens no further line. *)
Fixpoint splitlines (s : string) : list string :=
  match s with
  | EmptyString => []
  | String c s' =>
      if is_linebreak c then
        match c, s' with
        | "013"%char, String "010"%char s'' => EmptyString :: splitlines s''
        | _, _ => EmptyString :: splitlines s'
        end
      else
        match splitlines s' with
        | l :: ls => String c l :: ls
        | [] => [String c EmptyString]
        end
  end.

(** [list(dict.fromkeys(l))], with the keys already seen. *)
Fixpoint fromkeys (seen l : list string) : list string :=
  match l with
  | [] => []
  | x :: l' =>
      if existsb (String.eqb x) seen then fromkeys seen l'
      else x :: fromkeys (x :: seen) l'
  end.

Definition dedupe (l : list string) : list string := fromkeys [] l.

(** Line 59: the names one command-line argument contributes. *)
Definition arg_names (a : string) : list string :=
  map PyStr.strip
      (filter (fun p => negb (PyStr.is_empty (PyStr.strip p))) (split_on "," a)).

(** Lines 71-75: the names a line of the inputs file contributes. *)
Definition line_names (line : string) : list string :=
  let line := PyStr.strip line in
  if PyStr.is_empty line || String.prefix "#" line then [] else [line].

Definition sample_accounts : list string := ["jack"; "Twitter"; "elonmusk"].

(** [load_usernames(args)].  [inputs] is the inputs file: [None] when
    [path.exists()] is false, else what [read_text] returns or raises. *)
Definition load_usernames (args : list string) (inputs : option (result string))
    : result (list string) :=
  let cli_names := flat_map arg_names args in
  if nonempty cli_names then Ok (dedupe cli_names)
  else
    match inputs with
    | None => Ok sample_accounts
    | Some (Raise e) => Raise e
    | Some (Ok content) =>
        let names := flat_map line_names (splitlines content) in
        let names := if nonempty names then names else ["jack"] in
        Ok (dedupe names)
    end.

End Runner.

(** A name as the runner hands it on: not empty, no white space at
    either end. *)
Definition clean_name (n : string) : Prop :=
  PyStr.is_empty n = false /\ PyStr.strip n = n.

(** ** runner.py: one task per handle and the aggregation *)


(** Lines 92-97, what the task of one handle appends to [results]: the
    chain's batch, or nothing when the chain raises ([except Exception]
    logs it).  [run] is the handle and the world its chain saw. *)
Definition _task (self : TimelineFetcher) (rt : Runtime) (run : string * World)
    : list Post :=
  match fst (fetch_username self rt (snd run) (fst run) state0) with
  | Ok items => items
  | Raise _ => []
  end.


(** The run of [fetch_all] while [gather] is awaited: the admission gate
    of [Coordinator] together with the shared [results] list. *)
Module Gather.
Import Coordinator.


Record run : Type := {
  gate : sched;
  results : list Post
}.


(** One step of the event loop.  The first three are the gate's own and
    leave [results] alone.  In the last, the chain of task [i] ends in
    the world [w] it saw: between the last resumption of
    [fetch_username], the [extend] of line 94 and the release at the end
    of [async with] the task is not suspended, so they are one step. *)
Inductive step (self : TimelineFetcher) (rt : Runtime) (usernames : list string)
    : run -> run -> Prop :=
| step_acquire r i :
    nth_error (tasks (gate r)) i = Some Waiting ->
    0 < sem (gate r) ->
    step self rt usernames r
      {| gate := {| sem := sem (gate r) - 1;
                    tasks := set_nth i (Running false) (tasks (gate r)) |};
         results := results r |}
| step_get r i :
    nth_error (tasks (gate r)) i = Some (Running false) ->
    step self rt usernames r
      {| gate := {| sem := sem (gate r);
                    tasks := set_nth i (Running true) (tasks (gate r)) |};
         results := results r |}
| step_got r i :
    nth_error (tasks (gate r)) i = Some (Running true) ->
    step self rt usernames r
      {| gate := {| sem := sem (gate r);
                    tasks := set_nth i (Running false) (tasks (gate r)) |};
         results := results r |}
| step_extend r i name w :
    nth_error (tasks (gate r)) i = Some (Running false) ->
    nth_error usernames i = Some name ->
    step self rt usernames r
      {| gate := {| sem := sem (gate r) + 1;
                    tasks := set_nth i Finished (tasks (gate r)) |};
         results := (results r ++ _task self rt (name, w))%list |}.

Inductive reachable (self : TimelineFetcher) (rt : Runtime)
    (usernames : list string) (r0 : run) : run -> Prop :=
| reach_init : reachable self rt usernames r0 r0
| reach_step r r' :
    reachable self rt usernames r0 r ->
    step self rt usernames r r' ->
    reachable self rt usernames r0 r'.


End Gather.


(** ** outputs/exporters.py *)

Module Exporter.

Section Write.

(** [json.dumps(obj, ensure_ascii=False)] and
    [json.dumps(items, ensure_ascii=False, indent=2)]. *)
Variable A : Type.
Variable dumps : A -> string.
Variable dumps_indent : list A -> string.

Definition newline : string := String "010"%char EmptyString.

(** Lines 28-31: the text written to the file, one line per record. *)
Fixpoint _write_ndjson (items : list A) : string :=
  match items with
  | [] => EmptyString
  | obj :: items' => (dumps obj ++ newline) ++ _write_ndjson items'
  end.

(** Lines 24-25. *)
Definition _write_json (items : list A) : string := dumps_indent items.

(** Lines 18-22. *)
Definition write (ndjson : bool) (items : list A) : string :=
  if ndjson then _write_ndjson items else _write_json items.

End Write.

(** The lines of a text that ends each line with LF. *)
Fixpoint lines_lf (s : string) : list string :=
  match s with
  | EmptyString => []
  | String c s' =>
      if Ascii.eqb "010" c then EmptyString :: lines_lf s'
      else
        match lines_lf s' with
        | l :: ls => String c l :: ls
        | [] => [String c EmptyString]
        end
  end.

Definition has_lf (s : string) : bool :=
  negb (PyStr.forallb (fun c => negb (Ascii.eqb "010" c)) s).

End Exporter.

(** * Properties *)

(** ** The embedding on concrete inputs *)

Example lstrip_at_ex : PyStr.lstrip_char "@" "@@jack" = "jack".
Proof. reflexivity. Qed.

Example strip_ex : PyStr.strip "  jack " = "jack".
Proof. reflexivity. Qed.

Example py_int_ex : PyStr.py_int 4300 "12345" = Some 12345.
Proof. reflexivity. Qed.

Example str_of_Z_ex :
  PyStr.str_of_Z 1203 = "1203" /\ PyStr.str_of_Z 0 = "0" /\
  PyStr.str_of_Z 9999999999 = "9999999999" /\ PyStr.str_of_Z (-45) = "-45".
Proof. repeat split; reflexivity. Qed.

Example slice_ex :
  Py.slice_to [1; 2; 3] 2 = [1; 2] /\ Py.slice_to [1; 2; 3] 0 = [] /\
  Py.slice_to [1; 2; 3] (-1) = [1; 2] /\ Py.slice_to [1; 2; 3] 7 = [1; 2; 3].
Proof. repeat split; reflexivity. Qed.

Example truthy_ex :
  Py.truthy (VInt 0) = false /\ Py.truthy (VInt (-5)) = true /\
  Py.truthy (VStr "") = false /\ Py.truthy (VFloat 0%float) = false.
Proof. repeat split; reflexivity. Qed.

Example search_status_ex :
  Re.search_status "/alice/status/42#m" = Some "42" /\
  Re.search_status "/alice/status/" = None /\
  Re.search_status "/status/x/status/7" = Some "7".
Proof. repeat split; reflexivity. Qed.

Example search_count_ex :
  Re.search_count "12,345 Likes" = Some ("12,345", "Likes") /\
  Re.search_count "about 1.234  Retweets today" = Some ("1.234", "Retweets") /\
  Re.search_count "12a 3 replies" = Some ("3", "replies") /\
  Re.search_count "Likes 12" = None /\
  Re.search_count ",5 quotes" = Some ("5", "quotes").
Proof. repeat split; reflexivity. Qed.

(** The characters of the upper half: the no-break space U+00A0 and NEL
    U+0085 are white space for [strip] and [\s], a letter such as U+00C9
    is a word character and has a lower-case form, and the sign U+00D7
    is neither. *)
Example latin1_ex :
  PyStr.strip (String (ascii_of_nat 133) ("jack" ++ String (ascii_of_nat 160) ""))
    = "jack" /\
  Re.search_count ("1" ++ String (ascii_of_nat 160) "Likes 2 replies")
    = Some ("1", "Likes") /\
  Re.search_count ("1 " ++ String (ascii_of_nat 201) "a 2 likes")
    = Some ("1", String (ascii_of_nat 201) "a") /\
  PyStr.lower (String (ascii_of_nat 201) "A") = String (ascii_of_nat 233) "a" /\
  PyStr.is_word (ascii_of_nat 215) = false /\
  PyStr.lower_char (ascii_of_nat 215) = ascii_of_nat 215.
Proof. repeat split; reflexivity. Qed.

(** [int] under the default limit of 4300 digits: 4300 digits convert,
    4301 do not, and leading zeros count. *)
Example int_limit_ex :
  is_some (PyStr.py_int 4300 (Sample.nines 4300)) = true /\
  PyStr.py_int 4300 (Sample.nines 4301) = None /\
  PyStr.py_int 4300 (String "0" (Sample.nines 4300)) = None /\
  is_some (PyStr.py_int 0 (Sample.nines 4301)) = true.
Proof. repeat split; vm_compute; reflexivity. Qed.

(** A page the library's parser rejects: its exception leaves
    [_parse_nitter_html], and the chain goes on to the synthetic batch
    without asking the JSON endpoint. *)
Example rejected_markup_ex :
  _parse_nitter_html Sample.fetcher Sample.runtime Sample.offline "<![x]>" "alice"
    = Raise ParserRejectedMarkup.
Proof. reflexivity. Qed.

(** ** Facts about strings and the count pattern *)

Section StringFacts.
Import PyStr.

Lemma span_fst_forallb (p : ascii -> bool) (s : string) :
  forallb p (fst (span p s)) = true.
Proof.
  induction s as [|c s IH]; simpl; [reflexivity|].
  destruct (p c) eqn:Hc; [|reflexivity].
  destruct (span p s) as [a b]; simpl in *. now rewrite Hc, IH.
Qed.

Lemma digit_is_numchar (c : ascii) : is_digit c = true -> is_numchar c = true.
Proof. unfold is_numchar. now intros ->. Qed.

Lemma digit_not_separator (c : ascii) :
  is_digit c = true -> Ascii.eqb "," c = false /\ Ascii.eqb "." c = false.
Proof.
  intros Hd; split.
  - destruct (Ascii.eqb_spec "," c) as [<-|]; [discriminate Hd|reflexivity].
  - destruct (Ascii.eqb_spec "." c) as [<-|]; [discriminate Hd|reflexivity].
Qed.

(** A match of the count pattern at the head of [s] has a group 1 that
    starts with a digit and holds only digits, commas and periods. *)
Lemma count_here_shape (s g1 g2 : string) :
  Re.count_here s = Some (g1, g2) ->
  exists c rest, g1 = String c rest /\ is_digit c = true /\
                 forallb is_numchar g1 = true.
Proof.
  unfold Re.count_here. destruct s as [|c s]; [discriminate|].
  destruct (is_digit c) eqn:Hd; [|discriminate].
  pose proof (span_fst_forallb is_numchar (String c s)) as Hall.
  destruct (span is_numchar (String c s)) as [a r1] eqn:Hs.
  destruct (span is_space r1) as [ws r2].
  destruct (is_empty ws); [discriminate|].
  destruct (span is_word r2) as [w r3].
  destruct (is_empty w); [discriminate|].
  intros H; inversion H; subst; clear H.
  simpl in Hs. rewrite (digit_is_numchar _ Hd) in Hs.
  destruct (span is_numchar s) as [a' b']. inversion Hs; subst.
  exists c, a'. repeat split; auto.
Qed.

Lemma search_count_shape (s g1 g2 : string) :
  Re.search_count s = Some (g1, g2) ->
  exists c rest, g1 = String c rest /\ is_digit c = true /\
                 forallb is_numchar g1 = true.
Proof.
  induction s as [|c s IH].
  - discriminate.
  - change (Re.search_count (String c s))
      with (match Re.count_here (String c s) with
            | Some m => Some m
            | None => Re.search_count s
            end).
    destruct (Re.count_here (String c s)) as [[a b]|] eqn:Hh.
    + intros H; inversion H; subst. eapply count_here_shape; eauto.
    + exact IH.
Qed.

Lemma forallb_cons (p : ascii -> bool) (c : ascii) (s : string) :
  forallb p (String c s) = p c && forallb p s.
Proof. reflexivity. Qed.

Lemma append_empty_r (s : string) : s ++ "" = s.
Proof. induction s as [|a s IH]; cbn [append]; [reflexivity|now rewrite IH]. Qed.

Lemma span_app (p : ascii -> bool) (a b : string) :
  forallb p a = true ->
  span p (a ++ b) = (a ++ fst (span p b), snd (span p b)).
Proof.
  induction a as [|c a IH]; intros H.
  - cbn [append]. now destruct (span p b).
  - rewrite forallb_cons in H. apply andb_true_iff in H as [Hc Ha].
    cbn [append span]. rewrite Hc, (IH Ha). reflexivity.
Qed.

Lemma span_stop (p : ascii -> bool) (c : ascii) (s : string) :
  p c = false -> span p (String c s) = (EmptyString, String c s).
Proof. intros H. cbn [span]. now rewrite H. Qed.

Lemma space_not_numchar (c : ascii) : is_space c = true -> is_numchar c = false.
Proof.
  destruct c as [b0 b1 b2 b3 b4 b5 b6 b7].
  destruct b0, b1, b2, b3, b4, b5, b6, b7; intros H;
    vm_compute in H |- *; congruence.
Qed.

Lemma word_not_space (c : ascii) : is_word c = true -> is_space c = false.
Proof.
  destruct c as [b0 b1 b2 b3 b4 b5 b6 b7].
  destruct b0, b1, b2, b3, b4, b5, b6, b7; intros H;
    vm_compute in H |- *; congruence.
Qed.

(** The greedy runs lose no match: wherever the pattern can match at the
    head of a string in any way, with group 1 a digit and a run [g1] of
    digits, commas and periods, then white space [ws], then a word [g2],
    [count_here] matches with that same group 1 and a group 2 that
    starts with [g2]. *)
Lemma count_here_complete (c : ascii) (g1 ws g2 rest : string) :
  is_digit c = true ->
  forallb is_numchar g1 = true ->
  is_empty ws = false -> forallb is_space ws = true ->
  is_empty g2 = false -> forallb is_word g2 = true ->
  exists g2',
    Re.count_here (String c g1 ++ ws ++ g2 ++ rest) = Some (String c g1, g2 ++ g2').
Proof.
  intros Hc Hg1 Hws Hsp Hg2 Hw.
  destruct ws as [|w ws]; [discriminate|].
  destruct g2 as [|v g2]; [discriminate|].
  rewrite forallb_cons in Hsp, Hw.
  apply andb_true_iff in Hsp as [Hw0 Hsp]. apply andb_true_iff in Hw as [Hv0 Hw].
  exists (fst (span is_word rest)).
  unfold Re.count_here. cbn [append]. rewrite Hc.
  change (String c (g1 ++ String w (ws ++ String v (g2 ++ rest))))
    with (String c g1 ++ String w (ws ++ String v (g2 ++ rest))).
  rewrite span_app
    by (rewrite forallb_cons, (digit_is_numchar _ Hc), Hg1; reflexivity).
  rewrite span_stop by (apply space_not_numchar; exact Hw0).
  cbn [fst snd].
  change (String w (ws ++ String v (g2 ++ rest)))
    with (String w ws ++ String v (g2 ++ rest)).
  rewrite span_app by (rewrite forallb_cons, Hw0, Hsp; reflexivity).
  rewrite span_stop by (apply word_not_space; exact Hv0).
  cbn [fst snd].
  change (String v (g2 ++ rest)) with (String v g2 ++ rest).
  rewrite span_app by (rewrite forallb_cons, Hv0, Hw; reflexivity).
  cbn [fst snd append is_empty].
  now rewrite append_empty_r.
Qed.

Lemma search_count_nonempty (s : string) (m : string * string) :
  Re.search_count s = Some m -> is_empty s = false.
Proof. destruct s; [discriminate|reflexivity]. Qed.

Lemma remove_char_cons (c d : ascii) (s : string) :
  remove_char c (String d s) =
  if Ascii.eqb c d then remove_char c s else String d (remove_char c s).
Proof. reflexivity. Qed.

(** Deleting the commas and then the periods of a run of digits, commas
    and periods leaves digits only. *)
Lemma separators_removed_digits (g : string) :
  forallb is_numchar g = true ->
  forallb is_digit (remove_char "." (remove_char "," g)) = true.
Proof.
  induction g as [|c g IH]; [reflexivity|].
  rewrite forallb_cons. intros H.
  apply andb_true_iff in H as [Hc Hg]. specialize (IH Hg).
  rewrite remove_char_cons.
  destruct (Ascii.eqb "," c) eqn:E1; [exact IH|].
  rewrite remove_char_cons.
  destruct (Ascii.eqb "." c) eqn:E2; [exact IH|].
  rewrite forallb_cons, IH, andb_true_r.
  unfold is_numchar in Hc.
  rewrite (Ascii.eqb_sym c ","), (Ascii.eqb_sym c "."), E1, E2 in Hc.
  now rewrite !orb_false_r in Hc.
Qed.

Lemma separators_removed_head (c : ascii) (g : string) :
  is_digit c = true ->
  remove_char "." (remove_char "," (String c g)) =
  String c (remove_char "." (remove_char "," g)).
Proof.
  intros Hd. destruct (digit_not_separator c Hd) as [E1 E2].
  now rewrite remove_char_cons, E1, remove_char_cons, E2.
Qed.

Lemma digit_val_nonneg (c : ascii) : is_digit c = true -> 0 <= digit_val c <= 9.
Proof.
  unfold is_digit, digit_val. cbv zeta. intros H.
  apply andb_true_iff in H as [H1 H2].
  apply Nat.leb_le in H1. apply Nat.leb_le in H2. lia.
Qed.

Lemma digits_value_nonneg (s : string) :
  forall acc, forallb is_digit s = true -> 0 <= acc -> 0 <= digits_value acc s.
Proof.
  induction s as [|c s IH]; intros acc H Ha; [exact Ha|].
  rewrite forallb_cons in H. apply andb_true_iff in H as [Hc Hs].
  change (0 <= digits_value (10 * acc + digit_val c) s).
  apply IH; [exact Hs|]. pose proof (digit_val_nonneg c Hc). lia.
Qed.

End StringFacts.

Lemma classify_unknown (kind : string) (val : Z) (stats : Stats) :
  known_kind kind = false -> classify kind val stats = stats.
Proof.
  unfold known_kind, classify. intros H.
  repeat (apply orb_false_iff in H as [H ?]).
  now repeat match goal with E : _ = false |- _ => rewrite E; clear E end.
Qed.

(** Line 126 on group 1 of a match: the digits that remain after the
    separators are deleted convert to the number they write, unless the
    interpreter's limit on the number of digits refuses them. *)
Lemma count_group_int_spec (rt : Runtime) (label g1 g2 : string) :
  Re.search_count label = Some (g1, g2) ->
  let digits := PyStr.remove_char "." (PyStr.remove_char "," g1) in
  PyStr.forallb PyStr.is_digit digits = true /\
  PyStr.is_empty digits = false /\
  count_group_int rt g1 =
    (if PyStr.exceeds_limit (int_max_str_digits rt) (Z.of_nat (String.length digits))
     then Raise ValueError else Ok (PyStr.digits_value 0 digits)).
Proof.
  intros Hm digits.
  destruct (search_count_shape _ _ _ Hm) as (c & rest & Hg & Hd & Hall).
  assert (Hdig : PyStr.forallb PyStr.is_digit digits = true)
    by (apply separators_removed_digits; exact Hall).
  assert (Hne : PyStr.is_empty digits = false).
  { unfold digits. rewrite Hg, separators_removed_head by exact Hd. reflexivity. }
  repeat split; auto.
  unfold count_group_int, PyStr.py_int. fold digits. rewrite Hne, Hdig.
  now destruct (PyStr.exceeds_limit _ _).
Qed.

(** C9 (amended).  Whenever the count pattern matches a stat label, what
    remains of group 1 when every comma and every period is deleted is a
    non-empty string of digits.  When the interpreter accepts that many digits, the
    count is the non-negative decimal number they write, so a
    period-separated count such as 1.234 is read as 1234, and it is stored
    in favorites when the lower-cased word contains like, else in retweets
    when it contains retweet, else in replies when it contains repl, else
    in quotes when it contains quote, and nowhere otherwise.  When the
    digits exceed the interpreter's limit the conversion raises
    [ValueError] and so does the step. *)
Theorem C9_count_is_separator_free_decimal :
  forall (rt : Runtime) (stats : Stats) (s : tag) (label g1 g2 : string),
    stat_label s = VStr label ->
    Re.search_count label = Some (g1, g2) ->
    let digits := PyStr.remove_char "." (PyStr.remove_char "," g1) in
    let val := PyStr.digits_value 0 digits in
    let kind := PyStr.lower g2 in
    PyStr.forallb PyStr.is_digit digits = true /\
    PyStr.is_empty digits = false /\
    0 <= val /\
    (PyStr.exceeds_limit (int_max_str_digits rt) (Z.of_nat (String.length digits))
     = false ->
     count_group_int rt g1 = Ok val /\
     stat_step rt stats s =
       Ok (if PyStr.contains "like" kind then
             {| st_replies := st_replies stats; st_retweets := st_retweets stats;
                st_quotes := st_quotes stats; st_favorites := val |}
           else if PyStr.contains "retweet" kind then
             {| st_replies := st_replies stats; st_retweets := val;
                st_quotes := st_quotes stats; st_favorites := st_favorites stats |}
           else if PyStr.contains "repl" kind then
             {| st_replies := val; st_retweets := st_retweets stats;
                st_quotes := st_quotes stats; st_favorites := st_favorites stats |}
           else if PyStr.contains "quote" kind then
             {| st_replies := st_replies stats; st_retweets := st_retweets stats;
                st_quotes := val; st_favorites := st_favorites stats |}
           else stats)) /\
    (PyStr.exceeds_limit (int_max_str_digits rt) (Z.of_nat (String.length digits))
     = true ->
     count_group_int rt g1 = Raise ValueError /\
     stat_step rt stats s = Raise ValueError).
Proof.
  intros rt stats s label g1 g2 Hlabel Hm digits val kind.
  destruct (count_group_int_spec rt _ _ _ Hm) as (Hdig & Hne & Hint).
  fold digits in Hdig, Hne, Hint.
  assert (Hstep : stat_step rt stats s =
                  match count_group_int rt g1 with
                  | Ok v => Ok (classify kind v stats)
                  | Raise e => Raise e
                  end).
  { unfold stat_step. now rewrite Hlabel, (search_count_nonempty _ _ Hm), Hm. }
  repeat split; auto.
  - apply digits_value_nonneg; [exact Hdig|lia].
  - rewrite Hint, H. reflexivity.
  - rewrite Hstep, Hint, H. reflexivity.
  - rewrite Hint, H. reflexivity.
  - rewrite Hstep, Hint, H. reflexivity.
Qed.

Lemma C9_witness_period_count :
  stat_step Sample.runtime stats0 (Sample.text_node "1.234 Likes") =
  Ok {| st_replies := 0; st_retweets := 0; st_quotes := 0; st_favorites := 1234 |}.
Proof.
  exact (proj2 (proj1 (proj2 (proj2 (proj2
    (C9_count_is_separator_free_decimal Sample.runtime stats0
       (Sample.text_node "1.234 Likes") "1.234 Likes" "1.234" "Likes"
       eq_refl eq_refl)))) eq_refl)).
Defined.

(** C9, as stated, fails: a matched label whose count the code does not
    extract.  4301 nines exceed the default limit of 4300 digits, the
    conversion of line 126 raises [ValueError], and with it the whole
    HTML parse. *)
Lemma C9_long_count_raises :
  Re.search_count Sample.long_label = Some (Sample.nines 4301, "Likes") /\
  count_group_int Sample.runtime (Sample.nines 4301) = Raise ValueError /\
  stat_step Sample.runtime stats0 (Sample.text_node Sample.long_label)
    = Raise ValueError /\
  _parse_nitter_html Sample.fetcher Sample.runtime Sample.offline
    "<long count>" "alice" = Raise ValueError.
Proof. repeat split; vm_compute; reflexivity. Qed.

Example count_thousands_separator :
  stat_step Sample.runtime stats0 (Sample.text_node "12,345 Likes") =
  Ok {| st_replies := 0; st_retweets := 0; st_quotes := 0; st_favorites := 12345 |}.
Proof. reflexivity. Qed.

Example count_unknown_word :
  stat_step Sample.runtime stats0 (Sample.text_node "7 Views") = Ok stats0.
Proof. reflexivity. Qed.

(** ** The chain *)

Section ChainFacts.

Variable self : TimelineFetcher.
Variable rt : Runtime.
Variable world : World.

Lemma slice_to_nonempty {A} (l : list A) (n : Z) :
  nonempty l = true -> 1 <= n -> (1 <= List.length (Py.slice_to l n))%nat.
Proof.
  intros Hl Hn. unfold Py.slice_to.
  destruct (0 <=? n) eqn:E; [|apply Z.leb_gt in E; lia].
  destruct l as [|a l]; [discriminate|].
  destruct (Z.to_nat n) eqn:En; [lia|]. simpl. lia.
Qed.

Lemma synthetic_length (screen_name : string) :
  List.length (_synthetic_posts self rt world screen_name) = Z.to_nat (Z.min (max_posts self) 10).
Proof.
  unfold _synthetic_posts, synthetic_range. now rewrite length_map, length_seq.
Qed.

(** A batch returned from inside the outer [try] is a non-empty parse
    result cut at [max_posts]. *)
Lemma network_strategies_returned (h : string) (st st' : state) (b : list Post) :
  network_strategies self rt world h st = (Ok (Some b), st') ->
  exists items, nonempty items = true /\ b = Py.slice_to items (max_posts self).
Proof.
  unfold network_strategies, json_strategy, bind, lift, emit, try_except, ret.
  destruct (_client self rt); [|discriminate].
  destruct (_get_html world Html (html_url self h) st) as [[html|e] st1]; [|discriminate].
  destruct (_parse_nitter_html self rt world html h) as [items|e]; [|discriminate].
  destruct (nonempty items) eqn:Hi.
  - intros H; inversion H; subst. eauto.
  - destruct (_get_html world Json (json_url self h) _) as [[txt|e] st2];
      [|discriminate].
    destruct (json_loads rt txt) as [data|e]; [|discriminate].
    destruct (_parse_nitter_json self rt world data h) as [cand|e]; [|discriminate].
    destruct (nonempty cand) eqn:Hc; [|discriminate].
    intros H; inversion H; subst. eauto.
Qed.

Lemma fetch_username_outcome (screen_name : string) (st : state) :
  exists st', fetch_username self rt world screen_name st = (Ok (chain_outcome self rt world screen_name st), st').
Proof.
  unfold fetch_username, chain_outcome, bind, try_except, ret, emit.
  destruct (network_strategies self rt world (clean_handle screen_name) st) as [[[b|]|e] st1];
    simpl; eauto.
Qed.

(** C2.  With a positive [max_posts], the chain returns at least one
    record for every handle, whatever the client constructor, the network,
    the parsers and the decoder do: a batch returned by a network
    strategy is a non-empty parse result cut at [max_posts], and the
    synthetic strategy yields min(max_posts, 10) records, which is at
    least one. *)
Theorem C2_chain_returns_at_least_one :
  forall (screen_name : string) (st : state),
    1 <= max_posts self ->
    exists batch st',
      fetch_username self rt world screen_name st = (Ok batch, st') /\
      (1 <= List.length batch)%nat /\
      List.length (_synthetic_posts self rt world (clean_handle screen_name)) =
        Z.to_nat (Z.min (max_posts self) 10) /\
      (1 <= Z.to_nat (Z.min (max_posts self) 10))%nat.
Proof.
  intros screen_name st Hpos.
  destruct (fetch_username_outcome screen_name st) as [st' Hf].
  exists (chain_outcome self rt world screen_name st), st'.
  split; [exact Hf|]. split; [|split; [apply synthetic_length|lia]].
  unfold chain_outcome.
  destruct (network_strategies self rt world (clean_handle screen_name) st) as [[[b|]|e] st1] eqn:Hs;
    simpl; try (rewrite synthetic_length; lia).
  destruct (network_strategies_returned _ _ _ _ Hs) as (items & Hi & ->).
  now apply slice_to_nonempty.
Qed.

(** An exception of the client constructor is absorbed before any
    request is issued. *)
Lemma client_error_goes_synthetic (screen_name : string) (st : state) (e : exn) :
  _client self rt = Raise e ->
  fetch_username self rt world screen_name st =
  (Ok (_synthetic_posts self rt world (clean_handle screen_name)),
   {| requests := requests st; trace := (trace st ++ [Generate])%list |}).
Proof.
  intros Hc.
  unfold fetch_username, network_strategies, bind, try_except, lift, ret, emit.
  now rewrite Hc.
Qed.

(** An exception of a GET that is not an [HTTPError] is not retried. *)
Lemma get_html_no_retry (s : strategy) (url : string) (st : state) (e : exn) :
  net world (requests st) url = Raise e ->
  is_http_error e = false ->
  _get_html world s url st =
  (Raise e, {| requests := S (requests st); trace := (trace st ++ [Fetch s url])%list |}).
Proof.
  intros Hn He. unfold _get_html. simpl.
  unfold try_except, get_once, lift. now rewrite Hn, He.
Qed.

(** Every attempt of [_get_html] is a GET of the same URL for the same
    strategy, and there are between one and three of them. *)
Lemma retrying_trace (n : nat) (s : strategy) (url : string) :
  forall (st st' : state) (r : result string),
    retrying world n s url st = (r, st') ->
    exists k, (1 <= k <= S n)%nat /\
      trace st' = (trace st ++ repeat (Fetch s url) k)%list /\
      requests st' = (requests st + k)%nat.
Proof.
  induction n as [|n IH]; intros st st' r; simpl;
    unfold try_except, get_once, lift.
  - destruct (net world (requests st) url); intros H; inversion H; subst;
      exists 1%nat; simpl; repeat split; lia.
  - destruct (net world (requests st) url) as [t|e].
    + intros H; inversion H; subst. exists 1%nat; simpl; repeat split; lia.
    + destruct (is_http_error e).
      * intros H. apply IH in H as (k & Hk & Ht & Hr). simpl in Ht, Hr.
        exists (S k). repeat split; try lia.
        rewrite Ht, <- app_assoc. reflexivity.
      * intros H; inversion H; subst. exists 1%nat; simpl; repeat split; lia.
Qed.

(** [l[:n]] is a prefix of [l]: the first [n] elements, all of them when
    there are fewer, and for a negative [n] all but the last [-n]. *)
Lemma slice_to_prefix {A} (l : list A) (n : Z) :
  exists dropped,
    l = (Py.slice_to l n ++ dropped)%list /\
    (0 <= n ->
     Z.of_nat (List.length (Py.slice_to l n)) = Z.min (Z.of_nat (List.length l)) n) /\
    (n < 0 ->
     Z.of_nat (List.length (Py.slice_to l n))
     = Z.max 0 (Z.of_nat (List.length l) + n)).
Proof.
  unfold Py.slice_to. destruct (0 <=? n) eqn:E.
  - apply Z.leb_le in E. exists (skipn (Z.to_nat n) l).
    split; [now rewrite firstn_skipn|]. rewrite length_firstn. split; lia.
  - apply Z.leb_gt in E. exists (skipn (List.length l - Z.to_nat (- n)) l).
    split; [now rewrite firstn_skipn|]. rewrite length_firstn. split; lia.
Qed.

(** C7.  When the client is built, the page is fetched and the HTML parse
    yields at least one record, the chain returns the HTML batch capped
    at [max_posts], that is its first [max_posts] records, or all of them
    when there are fewer (for a negative [max_posts] the slice drops the
    last [-max_posts] records instead); and everything the run did was
    done by the HTML strategy: no GET of the JSON endpoint, no JSON
    parse, no synthetic generation. *)
Theorem C7_html_batch_stops_the_chain :
  forall (screen_name html : string) (st st1 : state) (items : list Post),
    _client self rt = Ok tt ->
    _get_html world Html (html_url self (clean_handle screen_name)) st = (Ok html, st1) ->
    _parse_nitter_html self rt world html (clean_handle screen_name) = Ok items ->
    nonempty items = true ->
    let batch := Py.slice_to items (max_posts self) in
    exists st' es dropped,
      fetch_username self rt world screen_name st = (Ok batch, st') /\
      trace st' = (trace st ++ es)%list /\
      Forall (fun e => strategy_of e = Html) es /\
      items = (batch ++ dropped)%list /\
      (0 <= max_posts self ->
       Z.of_nat (List.length batch)
       = Z.min (Z.of_nat (List.length items)) (max_posts self)) /\
      (max_posts self < 0 ->
       Z.of_nat (List.length batch)
       = Z.max 0 (Z.of_nat (List.length items) + max_posts self)).
Proof.
  intros screen_name html st st1 items Hc Hg Hp Hne batch. subst batch.
  destruct (retrying_trace _ _ _ _ _ _ Hg) as (k & Hk & Ht & Hr).
  destruct (slice_to_prefix items (max_posts self)) as (dropped & Hpre & Hlen & Hneg).
  exists {| requests := requests st1; trace := (trace st1 ++ [Parse Html])%list |},
         (repeat (Fetch Html (html_url self (clean_handle screen_name))) k ++ [Parse Html])%list,
         dropped.
  split; [|split; [|split; [|split; [exact Hpre|split; [exact Hlen|exact Hneg]]]]].
  - unfold fetch_username, network_strategies, bind, try_except, lift, ret, emit.
    now rewrite Hc, Hg, Hp, Hne.
  - simpl. rewrite Ht, <- app_assoc. reflexivity.
  - apply Forall_app; split.
    + apply Forall_forall. intros e He. apply repeat_spec in He. now subst.
    + constructor; [reflexivity|constructor].
Qed.

End ChainFacts.

Example scenario_one_item :
  _parse_nitter_html Sample.fetcher Sample.runtime Sample.offline "<one item>" "alice"
  = Ok [Sample.post_42].
Proof. reflexivity. Qed.

Lemma C2_witness_offline :
  exists batch st',
    fetch_username Sample.fetcher Sample.runtime Sample.offline "jack" state0
      = (Ok batch, st') /\
    (1 <= List.length batch)%nat /\
    List.length (_synthetic_posts Sample.fetcher Sample.runtime Sample.offline
                   (clean_handle "jack")) = Z.to_nat (Z.min 50 10) /\
    (1 <= Z.to_nat (Z.min 50 10))%nat.
Proof.
  apply (C2_chain_returns_at_least_one
           Sample.fetcher Sample.runtime Sample.offline "jack" state0).
  simpl. lia.
Defined.

(** C3, as stated, fails: the client constructor rejects the proxy, a
    configuration error, and the chain returns instead of raising. *)
Lemma C3_configuration_error_absorbed :
  (exists e, _client Sample.fetcher_bad_proxy Sample.runtime = Raise e /\
             is_configuration_error e = true) /\
  ~ raises_past_boundary
      (fetch_username Sample.fetcher_bad_proxy Sample.runtime Sample.offline
         "jack" state0).
Proof.
  split.
  - exists InvalidProxy. split; reflexivity.
  - intros [e He].
    rewrite (client_error_goes_synthetic Sample.fetcher_bad_proxy Sample.runtime
               Sample.offline "jack" state0 InvalidProxy eq_refl) in He.
    discriminate He.
Qed.

(** A malformed base URL is absorbed in the same way, after one GET. *)
Example invalid_url_absorbed :
  fetch_username Sample.fetcher_bad_base Sample.runtime Sample.bad_url "jack" state0 =
  (Ok (_synthetic_posts Sample.fetcher_bad_base Sample.runtime Sample.bad_url "jack"),
   {| requests := 1; trace := [Fetch Html "ht!tp:/jack"; Generate] |}).
Proof. reflexivity. Qed.

Lemma C7_witness_flaky :
  exists st' es dropped,
    fetch_username Sample.fetcher Sample.runtime Sample.flaky "@alice" state0
      = (Ok [Sample.post_42], st') /\
    trace st' = (trace state0 ++ es)%list /\
    Forall (fun e => strategy_of e = Html) es /\
    [Sample.post_42] = ([Sample.post_42] ++ dropped)%list /\
    (0 <= 50 -> Z.of_nat (List.length [Sample.post_42]) = Z.min 1 50) /\
    (50 < 0 -> Z.of_nat (List.length [Sample.post_42]) = Z.max 0 (1 + 50)).
Proof.
  apply (C7_html_batch_stops_the_chain
           Sample.fetcher Sample.runtime Sample.flaky "@alice" "<one item>" state0
           {| requests := 2;
              trace := [Fetch Html "https://nitter.net/alice";
                        Fetch Html "https://nitter.net/alice"] |}
           [Sample.post_42]);
    reflexivity.
Defined.

(** The run of the witness, evaluated: after one failed attempt the page
    arrives, its one record is the whole result, and a cap of one record
    keeps the first of two. *)
Example html_batch_evaluated :
  fetch_username Sample.fetcher Sample.runtime Sample.flaky "@alice" state0
    = (Ok [Sample.post_42],
       {| requests := 2;
          trace := [Fetch Html "https://nitter.net/alice";
                    Fetch Html "https://nitter.net/alice"; Parse Html] |}) /\
  Py.slice_to [Sample.post_42; Sample.post_42] 1 = [Sample.post_42].
Proof. split; reflexivity. Qed.

(** ** Timestamps and handles *)

(** The HTML strategy stores the node's title as it is, or [None]: the
    value computed by [to_iso8601] is the right operand of an [or] whose
    left operand is truthy whenever the right one is not [None]. *)
Lemma html_created_at_is_raw (rt : Runtime) (world : World) (page : soup)
    (screen_name : string) (k : nat) (item : timeline_item) (obj : Post) :
  html_item rt world page screen_name k item = Ok obj ->
  created_at obj =
  match tweet_date item with
  | Some date_node =>
      if Py.truthy (tag_get date_node "title") then tag_get date_node "title"
      else VNone
  | None => VNone
  end.
Proof.
  unfold html_item. destruct (stat_loop rt stats0 (tweet_stats item)); [|discriminate].
  intros H; inversion H; subst; clear H. simpl. unfold Py.or.
  destruct (tweet_date item) as [d|]; [|reflexivity].
  now destruct (Py.truthy (tag_get d "title")).
Qed.

(** So does the JSON strategy. *)
Lemma json_created_at_is_raw (rt : Runtime) (world : World) (k : nat) (v : value) :
  json_created_at rt world k v = if Py.truthy v then v else VNone.
Proof. unfold json_created_at. now destruct (Py.truthy v). Qed.

(** C1.  The code at the failing inputs: an item without a date node, or
    a JSON element without a date, gets [created_at = None]; an item with
    a date gets the source text unchanged although [to_iso8601] would
    normalise it. *)
Theorem C1_created_at_left_unnormalized :
  created_ats (_parse_nitter_html Sample.fetcher Sample.runtime Sample.offline
                 "<one item>" "alice") = [VNone] /\
  created_ats (_parse_nitter_html Sample.fetcher Sample.runtime Sample.offline
                 "<dated item>" "alice") = [VStr "Jan 1, 2024 12:00 PM UTC"] /\
  to_iso8601 Sample.runtime Sample.offline 0 (VStr "Jan 1, 2024 12:00 PM UTC")
    = "2024-01-01T12:00:00+00:00" /\
  created_ats (_parse_nitter_json Sample.fetcher Sample.runtime Sample.offline
                 (VList [VDict [("id", VInt 1)]]) "alice") = [VNone] /\
  created_ats (_parse_nitter_json Sample.fetcher Sample.runtime Sample.offline
                 (VList [VDict [("id", VInt 1); ("date", VStr "yesterday")]]) "alice")
    = [VStr "yesterday"].
Proof. repeat split; reflexivity. Qed.

(** The synthetic strategy is the one place where the fallback to the
    current time reaches the record. *)
Lemma synthetic_created_at_is_now (self : TimelineFetcher) (rt : Runtime)
    (world : World) (screen_name : string) (i : nat) :
  created_at (synthetic_obj rt world screen_name i) = VStr (clock world i).
Proof. reflexivity. Qed.

(** C8.  The code at the failing input: [lstrip("@")] runs before
    [strip()], so an [@] that follows leading white space survives and
    reaches the URL. *)
Theorem C8_at_after_blank_is_kept :
  clean_handle " @jack" = "@jack" /\
  html_url Sample.fetcher (clean_handle " @jack") = "https://nitter.net/@jack" /\
  json_url Sample.fetcher (clean_handle " @jack")
    = "https://nitter.net/@jack?_format=json" /\
  clean_handle "@@JackD " = "JackD".
Proof. repeat split; reflexivity. Qed.

(** ** Engagement counts *)

Section Engagement.

Variable self : TimelineFetcher.
Variable rt : Runtime.
Variable world : World.





(** One counter through the stat loop.  [proj] is the counter and [word]
    the keyword under which [classify] writes it. *)
Section Counter.

Variable proj : Stats -> Z.
Variable word : string.
Hypothesis classify_writes :
  forall kind val stats,
    proj (classify kind val stats) = proj stats \/
    (PyStr.contains word kind = true /\ proj (classify kind val stats) = val).



End Counter.













End Engagement.


(** The record of the sample item: its one stat label, 5 Likes, sets
    favorites, and the three counters no label names are 0. *)
Example html_counts_default :
  _parse_nitter_html Sample.fetcher Sample.runtime Sample.offline "<one item>" "alice"
    = Ok [Sample.post_42] /\
  favorites Sample.post_42 = VInt 5 /\ retweets Sample.post_42 = VInt 0 /\
  replies Sample.post_42 = VInt 0 /\ quotes Sample.post_42 = VInt 0.
Proof. repeat split; reflexivity. Qed.


(** ** The JSON strategy as a partial function *)

Section JsonTotality.

Variable self : TimelineFetcher.
Variable rt : Runtime.
Variable world : World.

Lemma item_wellshaped_ok (screen_name : string) (k : nat) (tw : value) :
  item_wellshaped tw = true ->
  exists p, json_item rt world screen_name k tw = Ok p.
Proof.
  unfold item_wellshaped, json_item.
  destruct tw as [| | | | |l|d]; try discriminate.
  destruct (Py.get_default d "user" (VDict [])); try discriminate.
  intros _. eauto.
Qed.

(** Any top-level value other than an array or an object with a truthy
    [statuses] gives the loop nothing to walk. *)
Lemma json_items_other_shape (data : value) :
  (forall l, data <> VList l) ->
  (forall d, data = VDict d -> Py.truthy (Py.get d "statuses") = false) ->
  json_items data = VList [].
Proof.
  intros Hl Hd. destruct data as [| | | | |l|d]; try reflexivity.
  - now destruct (Hl l).
  - simpl. unfold Py.or. rewrite (Hd d eq_refl).
    now destruct (Py.has_key d "statuses").
Qed.

(** The loop started with [results] already collected visits elements
    until [results] holds [max_posts] records, and at least one. *)
Lemma json_loop_wellshaped (screen_name : string) (items : list value) :
  forall (k : nat) (results : list Post),
    let n := Z.to_nat (Z.max 1 (max_posts self - Z.of_nat (List.length results))) in
    List.forallb item_wellshaped (firstn n items) = true ->
    exists batch,
      json_loop self rt world screen_name k items results = Ok (results ++ batch)%list /\
      Forall2 (fun tw p => exists j, json_item rt world screen_name j tw = Ok p)
              (firstn n items) batch.
Proof.
  induction items as [|tw items IH]; intros k results n Hw.
  - exists []. rewrite app_nil_r, firstn_nil. split; [reflexivity|constructor].
  - assert (Hn : n = S (n - 1)) by (unfold n; lia).
    rewrite Hn in Hw |- *. rewrite firstn_cons in Hw |- *.
    cbn [List.forallb] in Hw. apply andb_true_iff in Hw as [Htw Hrest].
    destruct (item_wellshaped_ok screen_name k tw Htw) as [obj Hobj].
    cbn [json_loop]. rewrite Hobj.
    unfold Py.len_ge. rewrite length_app. cbn [List.length].
    destruct (max_posts self <=? Z.of_nat (List.length results + 1)) eqn:Hge.
    + apply Z.leb_le in Hge.
      assert (Hn1 : (n - 1 = 0)%nat) by (unfold n; lia).
      rewrite Hn1, firstn_O. exists [obj]. split; [reflexivity|].
      constructor; [eauto|constructor].
    + apply Z.leb_gt in Hge.
      specialize (IH (S k) (results ++ [obj])%list).
      assert (Hn' : Z.to_nat (Z.max 1 (max_posts self
                       - Z.of_nat (List.length (results ++ [obj])%list)))
                    = (n - 1)%nat)
        by (rewrite length_app; cbn [List.length]; unfold n; lia).
      cbv zeta in IH. rewrite Hn' in IH.
      destruct (IH Hrest) as (batch & Hb & Hf).
      exists (obj :: batch). split.
      * rewrite Hb, <- app_assoc. reflexivity.
      * constructor; [eauto|exact Hf].
Qed.

(** C6 (amended).  When the value the loop walks is an array and each of
    the elements it visits (the first [max(1, max_posts)]) is an object
    whose [user] entry is absent or an object, the parser returns, and
    its result maps those elements one by one.  This covers every
    top-level value that is neither an array nor an object with a truthy
    [statuses]: the array walked is then empty. *)
Theorem C6_json_parser_on_wellshaped_input :
  forall (data : value) (screen_name : string) (items : list value),
    json_items data = VList items ->
    List.forallb item_wellshaped (firstn (json_cap self) items) = true ->
    exists batch,
      _parse_nitter_json self rt world data screen_name = Ok batch /\
      Forall2 (fun tw p => exists j, json_item rt world screen_name j tw = Ok p)
              (firstn (json_cap self) items) batch.
Proof.
  intros data screen_name items Hitems Hw.
  unfold _parse_nitter_json. rewrite Hitems. cbn [Py.iter].
  pose proof (json_loop_wellshaped screen_name items 0 []) as H.
  cbv zeta in H. cbn [List.length] in H.
  replace (Z.to_nat (Z.max 1 (max_posts self - Z.of_nat 0))) with (json_cap self) in H
    by (unfold json_cap; lia).
  destruct (H Hw) as (batch & Hb & Hf).
  exists batch. split; [exact Hb|exact Hf].
Qed.

(** An element with no entries at all maps to the defaults. *)
Lemma json_item_defaults (screen_name : string) (k : nat) :
  json_item rt world screen_name k (VDict []) =
  Ok {| tweet_id := VNone; created_at := VNone; text := VNone; lang := VNone;
        views := VNone; favorites := VInt 0; replies := VInt 0;
        retweets := VInt 0; quotes := VInt 0; bookmarks := VNone;
        conversation_id := VNone; media := VList [];
        author := {| rest_id := VNone; name := VStr screen_name;
                     screen_name := VStr screen_name; avatar := VNone;
                     blue_verified := VBool false |} |}.
Proof. reflexivity. Qed.

End JsonTotality.

Lemma C6_witness_one_element :
  exists batch,
    _parse_nitter_json Sample.fetcher Sample.runtime Sample.offline
      (VDict [("statuses", VList [VDict [("id", VInt 1)]])]) "jack" = Ok batch /\
    Forall2 (fun tw p => exists j,
               json_item Sample.runtime Sample.offline "jack" j tw = Ok p)
            (firstn (json_cap Sample.fetcher) [VDict [("id", VInt 1)]]) batch.
Proof.
  apply (C6_json_parser_on_wellshaped_input Sample.fetcher Sample.runtime
           Sample.offline
           (VDict [("statuses", VList [VDict [("id", VInt 1)]])]) "jack"
           [VDict [("id", VInt 1)]]); reflexivity.
Defined.

(** C6, as stated, fails: the parser raises on an array element that is
    not an object, on an object whose [user] is not an object, and on a
    truthy [statuses] that is not an array. *)
Lemma C6_json_parser_raises :
  _parse_nitter_json Sample.fetcher Sample.runtime Sample.offline
    (VList [VInt 1]) "jack" = Raise AttributeError /\
  _parse_nitter_json Sample.fetcher Sample.runtime Sample.offline
    (VList [VDict [("id", VInt 1); ("user", VNone)]]) "jack" = Raise AttributeError /\
  _parse_nitter_json Sample.fetcher Sample.runtime Sample.offline
    (VDict [("statuses", VStr "none yet")]) "jack" = Raise AttributeError /\
  _parse_nitter_json Sample.fetcher Sample.runtime Sample.offline
    (VDict [("statuses", VInt 5)]) "jack" = Raise TypeError.
Proof. repeat split; reflexivity. Qed.

(** The chain catches what the parser raises and goes on to the
    synthetic strategy. *)
Example json_raise_is_caught :
  let world := {| clock := Sample.noon;
                  net := fun n _ => match n with O => Ok "<empty>" | _ => Ok "[1]" end |} in
  fetch_username Sample.fetcher Sample.runtime world "jack" state0 =
  (Ok (_synthetic_posts Sample.fetcher Sample.runtime world "jack"),
   {| requests := 2;
      trace := [Fetch Html "https://nitter.net/jack"; Parse Html;
                Fetch Json "https://nitter.net/jack?_format=json"; Parse Json;
                Generate] |}).
Proof. reflexivity. Qed.

(** ** The synthetic strategy *)

Section DecimalText.
Import PyStr.

Lemma digit_val_digit_char (d : Z) : 0 <= d < 10 -> digit_val (digit_char d) = d.
Proof.
  intros Hd. unfold digit_val, digit_char.
  rewrite nat_ascii_embedding by lia. lia.
Qed.

Lemma pos_digits_value (fuel : nat) :
  forall (n : Z) (acc : string),
    0 <= n < 2 ^ Z.of_nat fuel ->
    digits_value 0 (pos_digits fuel n acc) = digits_value n acc.
Proof.
  induction fuel as [|fuel IH]; intros n acc Hn.
  - change (2 ^ Z.of_nat 0) with 1 in Hn. assert (n = 0) by lia. now subst.
  - cbn [pos_digits]. cbv zeta.
    assert (Hmod : 0 <= n mod 10 < 10) by (apply Z.mod_pos_bound; lia).
    destruct (n <? 10) eqn:Hlt.
    + apply Z.ltb_lt in Hlt.
      change (digits_value 0 (String (digit_char (n mod 10)) acc))
        with (digits_value (10 * 0 + digit_val (digit_char (n mod 10))) acc).
      rewrite digit_val_digit_char by exact Hmod.
      rewrite Z.mod_small by lia. f_equal; lia.
    + apply Z.ltb_ge in Hlt.
      rewrite IH.
      * change (digits_value (n / 10) (String (digit_char (n mod 10)) acc))
          with (digits_value (10 * (n / 10) + digit_val (digit_char (n mod 10))) acc).
        rewrite digit_val_digit_char by exact Hmod.
        pose proof (Z.div_mod n 10). f_equal; lia.
      * rewrite Nat2Z.inj_succ, Z.pow_succ_r in Hn by lia.
        split; [apply Z.div_pos; lia|].
        apply Z.div_lt_upper_bound; lia.
Qed.

(** [int(str(n)) = n] for a non-negative [n]. *)
Lemma str_of_Z_value (n : Z) : 0 <= n -> digits_value 0 (str_of_Z n) = n.
Proof.
  intros Hn. unfold str_of_Z.
  destruct (n <? 0) eqn:E; [apply Z.ltb_lt in E; lia|].
  rewrite pos_digits_value; [reflexivity|].
  split; [exact Hn|].
  rewrite Nat2Z.inj_succ, Z2Nat.id by apply Z.log2_nonneg.
  destruct (Z.eq_dec n 0) as [->|Hnz]; [reflexivity|].
  apply Z.log2_spec. lia.
Qed.

Lemma str_of_Z_inj (a b : Z) : 0 <= a -> 0 <= b -> str_of_Z a = str_of_Z b -> a = b.
Proof.
  intros Ha Hb H.
  rewrite <- (str_of_Z_value a Ha), <- (str_of_Z_value b Hb). now rewrite H.
Qed.

End DecimalText.

Lemma base_id_range (rt : Runtime) (screen_name : string) :
  0 <= base_id rt screen_name < 10000000000.
Proof. unfold base_id. apply Z.mod_pos_bound. lia. Qed.

(** Within one process, where [hash] is one function, two invocations
    agree on everything but the timestamp. *)
Lemma synthetic_stable_in_process (self : TimelineFetcher) (rt : Runtime)
    (world1 world2 : World) (screen_name : string) :
  map erase_created_at (_synthetic_posts self rt world1 screen_name) =
  map erase_created_at (_synthetic_posts self rt world2 screen_name).
Proof.
  unfold _synthetic_posts. rewrite !map_map. apply map_ext. reflexivity.
Qed.

(** C4.  The ids follow the interpreter's string hash: two processes
    whose hashes of the handle differ (after [abs] and reduction modulo
    ten thousand million) give the same handle different ids. *)
Theorem C4_synthetic_ids_follow_the_hash :
  forall (self : TimelineFetcher) (rt1 rt2 : Runtime) (world1 world2 : World)
         (screen_name : string),
    1 <= max_posts self ->
    Z.abs (hash rt1 screen_name) mod 10000000000
      <> Z.abs (hash rt2 screen_name) mod 10000000000 ->
    map tweet_id (_synthetic_posts self rt1 world1 screen_name)
      <> map tweet_id (_synthetic_posts self rt2 world2 screen_name).
Proof.
  intros self rt1 rt2 world1 world2 screen_name Hpos Hne Heq.
  unfold _synthetic_posts, synthetic_range in Heq.
  destruct (Z.to_nat (Z.min (max_posts self) 10)) as [|m] eqn:Hm; [lia|].
  cbn [seq map] in Heq. injection Heq as Hstr _.
  rewrite !Z.add_0_r in Hstr.
  apply str_of_Z_inj in Hstr;
    [|apply base_id_range|apply base_id_range].
  apply Hne. exact Hstr.
Qed.

Lemma C4_witness_two_salts :
  map tweet_id (_synthetic_posts Sample.fetcher (Sample.runtime_keyed 7)
                  Sample.offline "jack")
  <> map tweet_id (_synthetic_posts Sample.fetcher (Sample.runtime_keyed 8)
                     Sample.offline "jack").
Proof.
  apply (C4_synthetic_ids_follow_the_hash Sample.fetcher
           (Sample.runtime_keyed 7) (Sample.runtime_keyed 8)
           Sample.offline Sample.offline "jack").
  - simpl. lia.
  - vm_compute. lia.
Defined.

(** ** The admission gate *)

Module CoordinatorFacts.
Import Coordinator.

Lemma count_set_nth (f : phase -> bool) (l : list phase) :
  forall (i : nat) (p q : phase),
    nth_error l i = Some q ->
    count f (set_nth i p l) = count f l - weight f q + weight f p.
Proof.
  unfold weight.
  induction l as [|a l IH]; intros i p q H.
  - destruct i; discriminate H.
  - destruct i as [|i]; cbn [nth_error set_nth count] in *.
    + inversion H; subst. lia.
    + rewrite (IH i p q H). lia.
Qed.

Lemma count_init (f : phase -> bool) (usernames : list string) :
  f Waiting = false -> count f (map (fun _ => Waiting) usernames) = 0.
Proof.
  intros Hf. induction usernames as [|u us IH]; cbn [map count];
    [reflexivity|]. rewrite Hf, IH. reflexivity.
Qed.

Lemma fetching_le_running (l : list phase) :
  count is_fetching l <= count is_running l.
Proof.
  induction l as [|p l IH]; cbn [count]; [lia|].
  destruct p as [|[|]|]; cbn [is_fetching is_running]; lia.
Qed.

(** The counter and the running chains always add up to the size of the
    semaphore, and the counter never goes below zero. *)
Lemma gate_invariant (concurrency : Z) (usernames : list string) (s : sched) :
  0 <= concurrency ->
  reachable (init concurrency usernames) s ->
  0 <= sem s /\ sem s + chains_running s = concurrency.
Proof.
  intros Hn Hr. unfold chains_running.
  induction Hr as [|s s' Hr IH Hstep].
  - cbn [init sem tasks]. rewrite count_init by reflexivity. lia.
  - destruct IH as [IH0 IH1].
    destruct Hstep as [s i Hw Hpos|s i Hw|s i Hw|s i Hw]; cbn [sem tasks];
      rewrite (count_set_nth _ _ _ _ _ Hw); unfold weight;
      cbn [is_running]; lia.
Qed.

End CoordinatorFacts.

(** C10.  With a semaphore of size N (N >= 0) and any number of handles,
    in every state the coordinator can reach, at most N chains are
    between their acquire and their release, and the GETs in flight are
    no more than the chains running. *)
Theorem C10_at_most_N_chains_running :
  forall (concurrency : Z) (usernames : list string) (s : Coordinator.sched),
    0 <= concurrency ->
    Coordinator.reachable (Coordinator.init concurrency usernames) s ->
    Coordinator.chains_running s <= concurrency /\
    Coordinator.fetches_in_flight s <= Coordinator.chains_running s.
Proof.
  intros concurrency usernames s Hn Hr.
  destruct (CoordinatorFacts.gate_invariant concurrency usernames s Hn Hr) as [H0 H1].
  split; [lia|apply CoordinatorFacts.fetching_le_running].
Qed.

Lemma C10_witness_one_slot :
  Coordinator.chains_running
    {| Coordinator.sem := 0;
       Coordinator.tasks := [Coordinator.Running true; Coordinator.Waiting] |} <= 1 /\
  Coordinator.fetches_in_flight
    {| Coordinator.sem := 0;
       Coordinator.tasks := [Coordinator.Running true; Coordinator.Waiting] |}
  <= Coordinator.chains_running
       {| Coordinator.sem := 0;
          Coordinator.tasks := [Coordinator.Running true; Coordinator.Waiting] |}.
Proof.
  apply (C10_at_most_N_chains_running 1 ["jack"; "Twitter"]).
  - lia.
  - eapply Coordinator.reach_step.
    + eapply Coordinator.reach_step.
      * apply Coordinator.reach_init.
      * exact (Coordinator.step_acquire
                 (Coordinator.init 1 ["jack"; "Twitter"]) 0 eq_refl eq_refl).
    + exact (Coordinator.step_get
               {| Coordinator.sem := 0;
                  Coordinator.tasks := [Coordinator.Running false; Coordinator.Waiting] |}
               0 eq_refl).
Defined.

(** With the one slot taken, the second handle cannot be admitted. *)
Example gate_blocks_second_handle :
  forall s',
    ~ (Coordinator.step
         {| Coordinator.sem := 0;
            Coordinator.tasks := [Coordinator.Running true; Coordinator.Waiting] |} s'
       /\ Coordinator.chains_running s' = 2).
Proof.
  intros s' [Hstep Hrun].
  inversion Hstep as [s i Hw Hpos|s i Hw|s i Hw|s i Hw]; subst;
    cbn [Coordinator.sem Coordinator.tasks] in *; try lia;
    destruct i as [|[|i]]; cbn in Hw; try discriminate Hw;
    try (destruct i; discriminate Hw); cbn in Hrun; lia.
Qed.

(** * Further properties of the code *)

(** ** The HTML strategy *)

Section HtmlFacts.

Variable self : TimelineFetcher.
Variable rt : Runtime.
Variable world : World.

(** The one step of the stat loop that can raise is the conversion of
    line 126, and only on a count with more digits than the interpreter
    converts. *)
Lemma stat_step_raises (stats : Stats) (s : tag) (e : exn) :
  stat_step rt stats s = Raise e ->
  e = ValueError /\
  exists label g1 g2,
    stat_label s = VStr label /\ Re.search_count label = Some (g1, g2) /\
    PyStr.exceeds_limit (int_max_str_digits rt)
      (Z.of_nat (String.length (PyStr.remove_char "." (PyStr.remove_char "," g1))))
    = true.
Proof.
  unfold stat_step.
  destruct (stat_label s) as [| | | |label| |] eqn:Hl; try discriminate.
  destruct (PyStr.is_empty label); [discriminate|].
  destruct (Re.search_count label) as [[g1 g2]|] eqn:Hm; [|discriminate].
  destruct (count_group_int_spec rt _ _ _ Hm) as (_ & _ & Hint).
  rewrite Hint.
  destruct (PyStr.exceeds_limit _ _) eqn:Hlim; [|discriminate].
  intros H; inversion H; subst. split; [reflexivity|].
  exists label, g1, g2. auto.
Qed.

Lemma stat_loop_raises (spans : list tag) (e : exn) :
  forall stats,
    stat_loop rt stats spans = Raise e ->
    e = ValueError /\
    exists s label g1 g2,
      In s spans /\ stat_label s = VStr label /\
      Re.search_count label = Some (g1, g2) /\
      PyStr.exceeds_limit (int_max_str_digits rt)
        (Z.of_nat (String.length (PyStr.remove_char "." (PyStr.remove_char "," g1))))
      = true.
Proof.
  induction spans as [|s spans IH]; intros stats; cbn [stat_loop]; [discriminate|].
  destruct (stat_step rt stats s) as [st1|e1] eqn:E.
  - intros H. destruct (IH _ H) as (He & s' & label & g1 & g2 & Hin & Hrest).
    split; [exact He|]. exists s', label, g1, g2. split; [now right|exact Hrest].
  - intros H; inversion H; subst.
    destruct (stat_step_raises _ _ _ E) as (He & label & g1 & g2 & Hrest).
    split; [exact He|]. exists s, label, g1, g2. split; [now left|exact Hrest].
Qed.

Lemma html_loop_raises (page : soup) (screen_name : string)
    (items : list timeline_item) (e : exn) :
  forall k results,
    html_loop self rt world page screen_name k items results = Raise e ->
    e = ValueError /\
    exists item s label g1 g2,
      In item items /\ In s (tweet_stats item) /\ stat_label s = VStr label /\
      Re.search_count label = Some (g1, g2) /\
      PyStr.exceeds_limit (int_max_str_digits rt)
        (Z.of_nat (String.length (PyStr.remove_char "." (PyStr.remove_char "," g1))))
      = true.
Proof.
  induction items as [|item items IH]; intros k results; cbn [html_loop];
    [discriminate|].
  destruct (html_item rt world page screen_name k item) as [obj|e1] eqn:E.
  - destruct (Py.len_ge _ _); [discriminate|].
    intros H. destruct (IH _ _ H) as (He & item' & s & label & g1 & g2 & Hin & Hrest).
    split; [exact He|]. exists item', s, label, g1, g2.
    split; [now right|exact Hrest].
  - intros H; inversion H; subst. unfold html_item in E.
    destruct (stat_loop rt stats0 (tweet_stats item)) as [stats|e1] eqn:El;
      [discriminate|].
    inversion E; subst.
    destruct (stat_loop_raises _ _ _ El) as (He & s & label & g1 & g2 & Hin & Hrest).
    split; [exact He|]. exists item, s, label, g1, g2.
    split; [now left|]. split; [exact Hin|exact Hrest].
Qed.

(** X1.  The HTML strategy raises in two cases only.  Either the HTML
    parser of the library rejects the markup, and its exception passes
    through; or the page was parsed and one of the items walked has a
    stat label whose count, with the separators deleted, has more digits
    than the interpreter converts, and the exception is [ValueError].
    On every other page the parser returns a batch. *)
Theorem X1_html_parser_raises_only_from_bs4_or_int :
  forall (html screen_name : string),
    match _parse_nitter_html self rt world html screen_name with
    | Ok _ => True
    | Raise e =>
        BeautifulSoup rt html = Raise e \/
        (e = ValueError /\
         exists page item s label g1 g2,
           BeautifulSoup rt html = Ok page /\
           In item (timeline page) /\ In s (tweet_stats item) /\
           stat_label s = VStr label /\
           Re.search_count label = Some (g1, g2) /\
           PyStr.exceeds_limit (int_max_str_digits rt)
             (Z.of_nat (String.length
                          (PyStr.remove_char "." (PyStr.remove_char "," g1))))
           = true)
    end.
Proof.
  intros html screen_name. unfold _parse_nitter_html.
  destruct (BeautifulSoup rt html) as [page|e0] eqn:Hsoup; [|now left].
  destruct (html_loop self rt world page screen_name 0 (timeline page) [])
    as [batch|e] eqn:Hloop; [exact I|].
  right.
  destruct (html_loop_raises _ _ _ _ _ _ Hloop)
    as (He & item & s & label & g1 & g2 & Hrest).
  split; [exact He|]. exists page, item, s, label, g1, g2. auto.
Qed.

Lemma html_loop_length (page : soup) (screen_name : string)
    (items : list timeline_item) :
  forall k results batch,
    Z.of_nat (List.length results) < Z.max 1 (max_posts self) ->
    html_loop self rt world page screen_name k items results = Ok batch ->
    Z.of_nat (List.length batch) <= Z.max 1 (max_posts self).
Proof.
  induction items as [|item items IH]; intros k results batch Hlen; cbn [html_loop].
  - intros H; inversion H; subst. lia.
  - destruct (html_item rt world page screen_name k item) as [obj|e]; [|discriminate].
    set (results' := if Py.truthy (tweet_id obj) || Py.truthy (text obj)
                     then (results ++ [obj])%list else results).
    assert (Hl : Z.of_nat (List.length results') <= Z.of_nat (List.length results) + 1).
    { unfold results'. destruct (_ || _); [rewrite length_app; cbn [List.length]|]; lia. }
    unfold Py.len_ge.
    destruct (max_posts self <=? Z.of_nat (List.length results')) eqn:Hge.
    + intros H; inversion H; subst. lia.
    + apply Z.leb_gt in Hge. apply IH. lia.
Qed.

(** X2.  A batch of the HTML strategy holds at most [max_posts] records,
    and at most one when [max_posts] is zero or negative: the size test
    comes after the append. *)
Theorem X2_html_batch_is_capped :
  forall (html screen_name : string) (batch : list Post),
    _parse_nitter_html self rt world html screen_name = Ok batch ->
    Z.of_nat (List.length batch) <= Z.max 1 (max_posts self).
Proof.
  intros html screen_name batch H. unfold _parse_nitter_html in H.
  destruct (BeautifulSoup rt html) as [page|e0] eqn:Hsoup; [|discriminate].
  eapply html_loop_length; [|exact H]. cbn [List.length]. lia.
Qed.

(** Whatever holds of every record the loop body builds and keeps holds
    of every record of the batch. *)
Lemma html_loop_forall (P : Post -> Prop) (page : soup) (screen_name : string) :
  (forall k item obj,
      html_item rt world page screen_name k item = Ok obj ->
      kept obj = true -> P obj) ->
  forall items k results batch,
    Forall P results ->
    html_loop self rt world page screen_name k items results = Ok batch ->
    Forall P batch.
Proof.
  intros HP. induction items as [|item items IH]; intros k results batch Hr;
    cbn [html_loop].
  - intros H; inversion H; subst; exact Hr.
  - destruct (html_item rt world page screen_name k item) as [obj|e] eqn:E;
      [|discriminate].
    fold (kept obj).
    assert (Hr' : Forall P (if kept obj then (results ++ [obj])%list else results)).
    { destruct (kept obj) eqn:Hk; [|exact Hr].
      apply Forall_app; split; [exact Hr|].
      constructor; [eapply HP; eauto|constructor]. }
    destruct (Py.len_ge _ _).
    + intros H; inversion H; subst; exact Hr'.
    + apply IH; exact Hr'.
Qed.

(** X3.  Every record of an HTML batch has a tweet id or a non-empty
    text: a record with neither is never kept. *)
Theorem X3_html_record_has_id_or_text :
  forall (html screen_name : string) (batch : list Post) (p : Post),
    _parse_nitter_html self rt world html screen_name = Ok batch ->
    In p batch ->
    kept p = true.
Proof.
  intros html screen_name batch p H Hin. unfold _parse_nitter_html in H.
  destruct (BeautifulSoup rt html) as [page|e0] eqn:Hsoup; [|discriminate].
  eapply html_loop_forall with (P := fun p => kept p = true) in H;
    [|auto|constructor].
  rewrite Forall_forall in H. now apply H.
Qed.

Lemma status_here_digits (s g : string) :
  Re.status_here s = Some g ->
  PyStr.is_empty g = false /\ PyStr.forallb PyStr.is_digit g = true.
Proof.
  unfold Re.status_here.
  destruct (Re.strip_prefix "/status/" s) as [rest|]; [|discriminate].
  pose proof (span_fst_forallb PyStr.is_digit rest) as Hall.
  destruct (PyStr.span PyStr.is_digit rest) as [a b]. cbn [fst] in Hall.
  destruct (PyStr.is_empty a) eqn:He; [discriminate|].
  intros H; inversion H; subst. auto.
Qed.

Lemma search_status_digits (s g : string) :
  Re.search_status s = Some g ->
  PyStr.is_empty g = false /\ PyStr.forallb PyStr.is_digit g = true.
Proof.
  induction s as [|c s IH].
  - cbn. discriminate.
  - change (Re.search_status (String c s))
      with (match Re.status_here (String c s) with
            | Some g => Some g
            | None => Re.search_status s
            end).
    destruct (Re.status_here (String c s)) as [g'|] eqn:Hh.
    + intros H; inversion H; subst. eapply status_here_digits; eauto.
    + exact IH.
Qed.

Lemma item_sid_shape (item : timeline_item) : id_or_none (item_sid item) = true.
Proof.
  unfold item_sid. destruct (tweet_link item) as [link|]; [|reflexivity].
  destruct (tag_get link "href") as [| | | |href| |]; try reflexivity.
  destruct (PyStr.is_empty href); [reflexivity|].
  destruct (Re.search_status href) as [g|] eqn:Hs; [|reflexivity].
  destruct (search_status_digits _ _ Hs) as [H1 H2].
  cbn [opt_value id_or_none]. now rewrite H1, H2.
Qed.

(** X4.  In every record of an HTML batch the tweet id is [None] or a
    non-empty string of decimal digits, and the conversation id is the
    tweet id. *)
Theorem X4_html_ids :
  forall (html screen_name : string) (batch : list Post) (p : Post),
    _parse_nitter_html self rt world html screen_name = Ok batch ->
    In p batch ->
    id_or_none (tweet_id p) = true /\ conversation_id p = tweet_id p.
Proof.
  intros html screen_name batch p H Hin. unfold _parse_nitter_html in H.
  destruct (BeautifulSoup rt html) as [page|e0] eqn:Hsoup; [|discriminate].
  eapply html_loop_forall
    with (P := fun p => id_or_none (tweet_id p) = true /\
                        conversation_id p = tweet_id p) in H;
    [| |constructor].
  - rewrite Forall_forall in H. now apply H.
  - intros k item obj Hitem _. unfold html_item in Hitem.
    destruct (stat_loop rt stats0 (tweet_stats item)); [|discriminate].
    inversion Hitem; subst; clear Hitem. cbn [tweet_id conversation_id].
    split; [apply item_sid_shape|reflexivity].
Qed.

(** X5.  All records of one page carry the same author block, the one
    read from the page's profile card with the requested handle as
    screen name, and none of them has a language, a view count or a
    bookmark count. *)
Theorem X5_html_author_is_per_page :
  forall (html handle : string) (batch : list Post) (p : Post),
    _parse_nitter_html self rt world html handle = Ok batch ->
    In p batch ->
    (exists page, BeautifulSoup rt html = Ok page /\
                  author p = page_author page handle) /\
    screen_name (author p) = VStr handle /\
    lang p = VNone /\ views p = VNone /\ bookmarks p = VNone.
Proof.
  intros html handle batch p H Hin. unfold _parse_nitter_html in H.
  destruct (BeautifulSoup rt html) as [page|e0] eqn:Hsoup; [|discriminate].
  eapply html_loop_forall
    with (P := fun p => author p = page_author page handle /\
                        screen_name (author p) = VStr handle /\
                        lang p = VNone /\ views p = VNone /\ bookmarks p = VNone) in H;
    [| |constructor].
  - rewrite Forall_forall in H. destruct (H p Hin) as (Ha & Hrest).
    split; [exists page; auto|exact Hrest].
  - intros k item obj Hitem _. unfold html_item in Hitem.
    destruct (stat_loop rt stats0 (tweet_stats item)); [|discriminate].
    inversion Hitem; subst; clear Hitem. repeat split.
Qed.

Lemma html_loop_order (page : soup) (handle : string) (items : list timeline_item) :
  forall k results batch,
    html_loop self rt world page handle k items results = Ok batch ->
    exists objs,
      visits rt world page handle k items objs /\
      batch = (results ++ filter kept objs)%list.
Proof.
  induction items as [|item items IH]; intros k results batch; cbn [html_loop].
  - intros H; inversion H; subst. exists []. split; [constructor|].
    now rewrite app_nil_r.
  - destruct (html_item rt world page handle k item) as [obj|e] eqn:E;
      [|discriminate].
    fold (kept obj).
    destruct (Py.len_ge _ _).
    + intros H; inversion H; subst. exists [obj]. split.
      * constructor; [exact E|constructor].
      * cbn [filter]. destruct (kept obj); [reflexivity|now rewrite app_nil_r].
    + intros H. apply IH in H as (objs & Hv & ->).
      exists (obj :: objs). split.
      * constructor; assumption.
      * cbn [filter]. destruct (kept obj); [|reflexivity].
        now rewrite <- app_assoc.
Qed.

(** X6.  An HTML batch is in document order: it consists of the records
    built, one after the other, for an initial stretch of the page's
    timeline items, with those dropped that have neither id nor text. *)
Theorem X6_html_batch_in_document_order :
  forall (html handle : string) (batch : list Post),
    _parse_nitter_html self rt world html handle = Ok batch ->
    exists page objs,
      BeautifulSoup rt html = Ok page /\
      visits rt world page handle 0 (timeline page) objs /\
      batch = filter kept objs.
Proof.
  intros html handle batch H. unfold _parse_nitter_html in H.
  destruct (BeautifulSoup rt html) as [page|e0] eqn:Hsoup; [|discriminate].
  apply html_loop_order in H as (objs & Hv & ->). eauto.
Qed.

End HtmlFacts.

Lemma X2_witness_one_item :
  Z.of_nat (List.length [Sample.post_42]) <= Z.max 1 (max_posts Sample.fetcher).
Proof.
  apply (X2_html_batch_is_capped Sample.fetcher Sample.runtime Sample.offline
           "<one item>" "alice" [Sample.post_42]).
  reflexivity.
Defined.

Lemma X3_witness_one_item : kept Sample.post_42 = true.
Proof.
  apply (X3_html_record_has_id_or_text Sample.fetcher Sample.runtime Sample.offline
           "<one item>" "alice" [Sample.post_42] Sample.post_42).
  - reflexivity.
  - simpl. left. reflexivity.
Defined.

Lemma X4_witness_one_item :
  id_or_none (tweet_id Sample.post_42) = true /\
  conversation_id Sample.post_42 = tweet_id Sample.post_42.
Proof.
  apply (X4_html_ids Sample.fetcher Sample.runtime Sample.offline
           "<one item>" "alice" [Sample.post_42] Sample.post_42).
  - reflexivity.
  - simpl. left. reflexivity.
Defined.

Lemma X5_witness_one_item :
  (exists page, BeautifulSoup Sample.runtime "<one item>" = Ok page /\
                author Sample.post_42 = page_author page "alice") /\
  screen_name (author Sample.post_42) = VStr "alice" /\
  lang Sample.post_42 = VNone /\ views Sample.post_42 = VNone /\
  bookmarks Sample.post_42 = VNone.
Proof.
  apply (X5_html_author_is_per_page Sample.fetcher Sample.runtime Sample.offline
           "<one item>" "alice" [Sample.post_42] Sample.post_42).
  - reflexivity.
  - simpl. left. reflexivity.
Defined.

Lemma X6_witness_one_item :
  exists page objs,
    BeautifulSoup Sample.runtime "<one item>" = Ok page /\
    visits Sample.runtime Sample.offline page "alice" 0 (timeline page) objs /\
    [Sample.post_42] = filter kept objs.
Proof.
  apply (X6_html_batch_in_document_order Sample.fetcher Sample.runtime Sample.offline
           "<one item>" "alice" [Sample.post_42]).
  reflexivity.
Defined.

(** ** The patterns *)

Section PatternFacts.
Import PyStr.

Lemma span_spec (p : ascii -> bool) (s : string) :
  s = fst (span p s) ++ snd (span p s) /\
  match snd (span p s) with
  | EmptyString => True
  | String c _ => p c = false
  end.
Proof.
  induction s as [|c s [IH1 IH2]]; cbn [span].
  - split; [reflexivity|exact I].
  - destruct (p c) eqn:Hc.
    + destruct (span p s) as [a b]. cbn [fst snd append] in *.
      split; [now rewrite <- IH1|exact IH2].
    + cbn [fst snd append]. split; [reflexivity|exact Hc].
Qed.

Lemma strip_prefix_app (p s rest : string) :
  Re.strip_prefix p s = Some rest -> s = p ++ rest.
Proof.
  revert s. induction p as [|a p IH]; intros s; cbn [Re.strip_prefix].
  - intros H; inversion H; reflexivity.
  - destruct s as [|b s]; [discriminate|].
    destruct (Ascii.eqb_spec a b) as [<-|]; [|discriminate].
    intros H. cbn [append]. now rewrite (IH _ H).
Qed.

Lemma status_here_sound (s g : string) :
  Re.status_here s = Some g ->
  exists post,
    s = "/status/" ++ g ++ post /\
    match post with EmptyString => True | String c _ => is_digit c = false end.
Proof.
  unfold Re.status_here.
  destruct (Re.strip_prefix "/status/" s) as [rest|] eqn:Hp; [|discriminate].
  destruct (span_spec is_digit rest) as [Hs Hstop].
  destruct (span is_digit rest) as [a b]. cbn [fst snd] in *.
  destruct (is_empty a); [discriminate|].
  intros H; inversion H; subst a. exists b. split; [|exact Hstop].
  rewrite (strip_prefix_app _ _ _ Hp), Hs. reflexivity.
Qed.

(** X7.  The id the status pattern extracts from a link is what the link
    says: the link reads [pre ++ "/status/" ++ id ++ post], the id is a
    non-empty string of digits, and [post] does not go on with a digit. *)
Theorem X7_status_id_is_read_off_the_link :
  forall (href g : string),
    Re.search_status href = Some g ->
    exists pre post,
      href = pre ++ "/status/" ++ g ++ post /\
      is_empty g = false /\ forallb is_digit g = true /\
      match post with EmptyString => True | String c _ => is_digit c = false end.
Proof.
  induction href as [|c href IH]; intros g.
  - cbn. discriminate.
  - change (Re.search_status (String c href))
      with (match Re.status_here (String c href) with
            | Some g => Some g
            | None => Re.search_status href
            end).
    destruct (Re.status_here (String c href)) as [g'|] eqn:Hh.
    + intros H; inversion H; subst g'.
      destruct (status_here_sound _ _ Hh) as (post & Hs & Hstop).
      destruct (status_here_digits _ _ Hh) as [Hne Hd].
      exists EmptyString, post. cbn [append] in *. auto.
    + intros H. destruct (IH g H) as (pre & post & Hs & Hne & Hd & Hstop).
      exists (String c pre), post. cbn [append]. rewrite Hs. auto.
Qed.

(** X8.  A label that begins with a count always matches, and group 1 is
    exactly that count: for a digit and a run of digits, commas and
    periods, then white space, then a word, the search returns the run as
    group 1 and a group 2 that begins with the word. *)
Theorem X8_label_starting_with_a_count_matches :
  forall (c : ascii) (g1 ws g2 rest : string),
    is_digit c = true ->
    forallb is_numchar g1 = true ->
    is_empty ws = false -> forallb is_space ws = true ->
    is_empty g2 = false -> forallb is_word g2 = true ->
    exists g2',
      Re.search_count (String c g1 ++ ws ++ g2 ++ rest) = Some (String c g1, g2 ++ g2').
Proof.
  intros c g1 ws g2 rest Hc Hg1 Hws Hsp Hg2 Hw.
  destruct (count_here_complete c g1 ws g2 rest Hc Hg1 Hws Hsp Hg2 Hw) as [g2' H].
  exists g2'. cbn [append] in *.
  change (Re.search_count (String c (g1 ++ ws ++ g2 ++ rest)))
    with (match Re.count_here (String c (g1 ++ ws ++ g2 ++ rest)) with
          | Some m => Some m
          | None => Re.search_count (g1 ++ ws ++ g2 ++ rest)
          end).
  now rewrite H.
Qed.

End PatternFacts.

Lemma X7_witness_status_link :
  exists pre post,
    "/alice/status/42#m" = pre ++ "/status/" ++ "42" ++ post /\
    PyStr.is_empty "42" = false /\ PyStr.forallb PyStr.is_digit "42" = true /\
    match post with EmptyString => True | String c _ => PyStr.is_digit c = false end.
Proof.
  apply (X7_status_id_is_read_off_the_link "/alice/status/42#m" "42").
  reflexivity.
Defined.

Lemma X8_witness_likes :
  exists g2', Re.search_count ("12,345" ++ " " ++ "Likes" ++ " today")
              = Some ("12,345", "Likes" ++ g2').
Proof.
  apply (X8_label_starting_with_a_count_matches "1" "2,345" " " "Likes" " today");
    reflexivity.
Defined.

(** ** The JSON strategy, from result to input *)

Section JsonFacts.

Variable self : TimelineFetcher.
Variable rt : Runtime.
Variable world : World.

Lemma json_item_wellshaped (handle : string) (k : nat) (tw : value) (p : Post) :
  json_item rt world handle k tw = Ok p -> item_wellshaped tw = true.
Proof.
  unfold json_item, item_wellshaped.
  destruct tw as [| | | | |l|d]; try discriminate.
  destruct (Py.get_default d "user" (VDict [])); try discriminate. reflexivity.
Qed.

(** A loop that returns has visited well-shaped elements only, as many
    as it took to fill the batch, and has built one record from each. *)
Lemma json_loop_visited (handle : string) (items : list value) :
  forall (k : nat) (results batch : list Post),
    json_loop self rt world handle k items results = Ok batch ->
    let n := Z.to_nat (Z.max 1 (max_posts self - Z.of_nat (List.length results))) in
    List.forallb item_wellshaped (firstn n items) = true /\
    List.length batch = (List.length results + Nat.min (List.length items) n)%nat.
Proof.
  induction items as [|tw items IH]; intros k results batch H n.
  - cbn [json_loop] in H. inversion H; subst.
    rewrite firstn_nil. cbn [List.length]. split; [reflexivity|lia].
  - cbn [json_loop] in H.
    destruct (json_item rt world handle k tw) as [obj|e] eqn:E; [|discriminate].
    assert (Hn : n = S (n - 1)) by (unfold n; lia).
    rewrite Hn, firstn_cons. cbn [List.forallb List.length].
    rewrite (json_item_wellshaped _ _ _ _ E). cbn [andb].
    unfold Py.len_ge in H. rewrite length_app in H. cbn [List.length] in H.
    destruct (max_posts self <=? Z.of_nat (List.length results + 1)) eqn:Hge.
    + apply Z.leb_le in Hge. inversion H; subst.
      assert (Hn1 : (n - 1 = 0)%nat) by (unfold n; lia).
      rewrite Hn1, firstn_O, length_app. cbn [List.length]. split; [reflexivity|lia].
    + apply Z.leb_gt in Hge.
      apply IH in H. cbv zeta in H.
      assert (Hn' : Z.to_nat (Z.max 1 (max_posts self
                       - Z.of_nat (List.length (results ++ [obj])%list)))
                    = (n - 1)%nat)
        by (rewrite length_app; cbn [List.length]; unfold n; lia).
      rewrite Hn' in H. destruct H as [Hw Hl].
      split; [exact Hw|]. rewrite Hl, length_app. cbn [List.length]. lia.
Qed.

(** X9.  The JSON strategy returns only on well-shaped input: if the
    parser returns a batch, every element it visited (the first
    max(1, max_posts) of the sequence it walked) is an object whose
    [user] entry is absent or an object. *)
Theorem X9_json_result_means_wellshaped_input :
  forall (data : value) (handle : string) (batch : list Post),
    _parse_nitter_json self rt world data handle = Ok batch ->
    List.forallb item_wellshaped (firstn (json_cap self) (json_elements data)) = true.
Proof.
  intros data handle batch H. unfold _parse_nitter_json in H. unfold json_elements.
  destruct (Py.iter (json_items data)) as [items|e]; [|discriminate].
  apply json_loop_visited in H. cbv zeta in H. cbn [List.length] in H.
  replace (Z.to_nat (Z.max 1 (max_posts self - Z.of_nat 0))) with (json_cap self) in H
    by (unfold json_cap; lia).
  apply H.
Qed.

(** X10.  A batch of the JSON strategy has one record per element walked,
    up to max(1, max_posts) of them: with [max_posts] zero or negative a
    non-empty document still yields one record. *)
Theorem X10_json_batch_size :
  forall (data : value) (handle : string) (batch : list Post),
    _parse_nitter_json self rt world data handle = Ok batch ->
    List.length batch = Nat.min (List.length (json_elements data)) (json_cap self).
Proof.
  intros data handle batch H. unfold _parse_nitter_json in H. unfold json_elements.
  destruct (Py.iter (json_items data)) as [items|e]; [|discriminate].
  apply json_loop_visited in H. cbv zeta in H. cbn [List.length] in H.
  replace (Z.to_nat (Z.max 1 (max_posts self - Z.of_nat 0))) with (json_cap self) in H
    by (unfold json_cap; lia).
  destruct H as [_ H]. rewrite H. reflexivity.
Qed.

End JsonFacts.

Lemma X9_witness_two_elements :
  List.forallb item_wellshaped
    (firstn (json_cap Sample.fetcher)
       (json_elements (VList [VDict [("id", VInt 1)]; VDict []]))) = true.
Proof.
  eapply (X9_json_result_means_wellshaped_input Sample.fetcher Sample.runtime
            Sample.offline (VList [VDict [("id", VInt 1)]; VDict []]) "jack").
  reflexivity.
Defined.

Lemma X10_witness_two_elements :
  exists batch,
    _parse_nitter_json Sample.fetcher Sample.runtime Sample.offline
      (VList [VDict [("id", VInt 1)]; VDict []]) "jack" = Ok batch /\
    List.length batch = 2%nat.
Proof.
  eexists. split; [reflexivity|].
  eapply (X10_json_batch_size Sample.fetcher Sample.runtime Sample.offline
            (VList [VDict [("id", VInt 1)]; VDict []]) "jack").
  reflexivity.
Defined.

(** ** The synthetic batch *)

Section SyntheticFacts.
Import PyStr.

Variable self : TimelineFetcher.
Variable rt : Runtime.
Variable world : World.

Lemma digit_char_is_digit (d : Z) : 0 <= d < 10 -> is_digit (digit_char d) = true.
Proof.
  intros Hd. unfold is_digit, digit_char. cbv zeta.
  rewrite nat_ascii_embedding by lia.
  apply andb_true_iff. split; apply Nat.leb_le; lia.
Qed.

Lemma pos_digits_all_digits (fuel : nat) :
  forall (n : Z) (acc : string),
    forallb is_digit acc = true ->
    forallb is_digit (pos_digits fuel n acc) = true.
Proof.
  induction fuel as [|fuel IH]; intros n acc Hacc; cbn [pos_digits]; [exact Hacc|].
  cbv zeta.
  assert (Hc : forallb is_digit (String (digit_char (n mod 10)) acc) = true).
  { rewrite forallb_cons, Hacc, andb_true_r.
    apply digit_char_is_digit. apply Z.mod_pos_bound. lia. }
  destruct (n <? 10); [exact Hc|]. apply IH. exact Hc.
Qed.

Lemma pos_digits_nonempty (fuel : nat) :
  forall (n : Z) (acc : string),
    is_empty acc = false -> is_empty (pos_digits fuel n acc) = false.
Proof.
  induction fuel as [|fuel IH]; intros n acc Hacc; cbn [pos_digits]; [exact Hacc|].
  cbv zeta. destruct (n <? 10); [reflexivity|]. apply IH. reflexivity.
Qed.

Lemma pos_digits_length (fuel : nat) :
  forall (n : Z) (acc : string),
    (String.length (pos_digits fuel n acc) <= fuel + String.length acc)%nat.
Proof.
  induction fuel as [|fuel IH]; intros n acc; cbn [pos_digits]; [lia|].
  cbv zeta. destruct (n <? 10).
  - cbn [String.length]. lia.
  - specialize (IH (n / 10) (String (digit_char (n mod 10)) acc)).
    cbn [String.length] in IH. lia.
Qed.

(** [int(str(n)) = n] for a non-negative [n] of at most 640 digits, as
    [int] sees it, whatever the interpreter's limit. *)
Lemma py_int_str_of_Z (limit n : Z) :
  0 <= n < 2 ^ 640 -> py_int limit (str_of_Z n) = Some n.
Proof.
  intros Hn. unfold py_int.
  assert (Hlen : exceeds_limit limit (Z.of_nat (String.length (str_of_Z n))) = false).
  { unfold exceeds_limit, max_str_digits_threshold.
    assert (Hl : Z.of_nat (String.length (str_of_Z n)) <= 640).
    { unfold str_of_Z. destruct (n <? 0) eqn:E; [apply Z.ltb_lt in E; lia|].
      pose proof (pos_digits_length (S (Z.to_nat (Z.log2 n))) n "") as Hp.
      cbn [String.length] in Hp.
      assert (Z.log2 n < 640).
      { destruct (Z.eq_dec n 0) as [->|Hnz]; [reflexivity|].
        apply Z.log2_lt_pow2; lia. }
      pose proof (Z.log2_nonneg n). lia. }
    apply Z.ltb_ge in Hl. now rewrite Hl. }
  assert (He : is_empty (str_of_Z n) = false).
  { unfold str_of_Z. destruct (n <? 0) eqn:E; [apply Z.ltb_lt in E; lia|].
    cbn [pos_digits]. cbv zeta. destruct (n <? 10); [reflexivity|].
    apply pos_digits_nonempty. reflexivity. }
  assert (Hd : forallb is_digit (str_of_Z n) = true).
  { unfold str_of_Z. destruct (n <? 0) eqn:E; [apply Z.ltb_lt in E; lia|].
    apply pos_digits_all_digits. reflexivity. }
  rewrite He, Hd, Hlen, str_of_Z_value by lia. reflexivity.
Qed.

Lemma nth_error_seq_inv (n : nat) :
  forall (a i x : nat), nth_error (seq a n) i = Some x -> x = (a + i)%nat /\ (i < n)%nat.
Proof.
  induction n as [|n IH]; intros a i x; cbn [seq].
  - destruct i; discriminate.
  - destruct i as [|i]; cbn [nth_error].
    + intros H; inversion H; subst. lia.
    + intros H. apply IH in H. lia.
Qed.

Lemma synthetic_nth (handle : string) (i : nat) (p : Post) :
  nth_error (_synthetic_posts self rt world handle) i = Some p ->
  p = synthetic_obj rt world handle i /\
  (i < Z.to_nat (Z.min (max_posts self) 10))%nat.
Proof.
  unfold _synthetic_posts, synthetic_range. rewrite nth_error_map.
  destruct (nth_error (seq 0 (Z.to_nat (Z.min (max_posts self) 10))) i) as [x|] eqn:E;
    [|discriminate].
  apply nth_error_seq_inv in E as [-> Hi]. cbn [option_map].
  intros H; inversion H; subst. auto.
Qed.

(** X11.  The i-th record of the synthetic batch has, as tweet id and as
    conversation id, the decimal text of [base + i], where [base] is
    [abs(hash(handle)) % 10_000_000_000]: reading the id back with [int]
    gives [base + i], a number below 10_000_000_010; and the batch has
    fewer than eleven records and no more than [max_posts]. *)
Theorem X11_synthetic_ids_decode :
  forall (handle : string) (i : nat) (p : Post),
    nth_error (_synthetic_posts self rt world handle) i = Some p ->
    exists s,
      tweet_id p = VStr s /\ conversation_id p = VStr s /\
      py_int (int_max_str_digits rt) s = Some (base_id rt handle + Z.of_nat i) /\
      0 <= base_id rt handle + Z.of_nat i < 10000000010 /\
      Z.of_nat i < 10 /\ Z.of_nat i < max_posts self.
Proof.
  intros handle i p H. apply synthetic_nth in H as [-> Hi].
  pose proof (base_id_range rt handle) as Hb.
  exists (str_of_Z (base_id rt handle + Z.of_nat i)).
  repeat split; try reflexivity; try lia.
  apply py_int_str_of_Z.
  assert (10000000010 < 2 ^ 640) by reflexivity. lia.
Qed.

(** X12.  The tweet ids of one synthetic batch are pairwise distinct. *)
Theorem X12_synthetic_ids_distinct :
  forall (handle : string),
    NoDup (map tweet_id (_synthetic_posts self rt world handle)).
Proof.
  intros handle. unfold _synthetic_posts. rewrite map_map.
  apply NoDup_map_NoDup_ForallPairs; [|apply seq_NoDup].
  intros i j _ _ H. cbn [synthetic_obj tweet_id] in H.
  injection H as H.
  pose proof (base_id_range rt handle) as Hb.
  apply str_of_Z_inj in H; lia.
Qed.

(** X13.  In every synthetic record the four counts are integers with
    [0 <= quotes <= retweets <= replies <= favorites]. *)
Theorem X13_synthetic_counts_ordered :
  forall (handle : string) (p : Post),
    In p (_synthetic_posts self rt world handle) ->
    exists q r t f,
      quotes p = VInt q /\ retweets p = VInt r /\
      replies p = VInt t /\ favorites p = VInt f /\
      0 <= q <= r /\ r <= t <= f.
Proof.
  intros handle p Hin. unfold _synthetic_posts in Hin.
  apply in_map_iff in Hin as (i & <- & _).
  exists (Z.of_nat i / 5), (Z.of_nat i / 3), (Z.of_nat i / 2), (10 + Z.of_nat i).
  repeat split; try reflexivity.
  - apply Z.div_pos; lia.
  - apply Z.div_le_lower_bound; [lia|].
    pose proof (Z.mul_div_le (Z.of_nat i) 5 ltac:(lia)). lia.
  - apply Z.div_le_lower_bound; [lia|].
    pose proof (Z.mul_div_le (Z.of_nat i) 3 ltac:(lia)). lia.
  - pose proof (Z.mul_div_le (Z.of_nat i) 2 ltac:(lia)). lia.
Qed.

End SyntheticFacts.

Lemma X11_witness_third_record :
  exists s,
    tweet_id (synthetic_obj Sample.runtime Sample.offline "jack" 2) = VStr s /\
    conversation_id (synthetic_obj Sample.runtime Sample.offline "jack" 2) = VStr s /\
    PyStr.py_int (int_max_str_digits Sample.runtime) s
      = Some (base_id Sample.runtime "jack" + Z.of_nat 2) /\
    0 <= base_id Sample.runtime "jack" + Z.of_nat 2 < 10000000010 /\
    Z.of_nat 2 < 10 /\ Z.of_nat 2 < max_posts Sample.fetcher.
Proof.
  apply (X11_synthetic_ids_decode Sample.fetcher Sample.runtime Sample.offline
           "jack" 2 (synthetic_obj Sample.runtime Sample.offline "jack" 2)).
  reflexivity.
Defined.

Lemma X13_witness_third_record :
  exists q r t f,
    quotes (synthetic_obj Sample.runtime Sample.offline "jack" 2) = VInt q /\
    retweets (synthetic_obj Sample.runtime Sample.offline "jack" 2) = VInt r /\
    replies (synthetic_obj Sample.runtime Sample.offline "jack" 2) = VInt t /\
    favorites (synthetic_obj Sample.runtime Sample.offline "jack" 2) = VInt f /\
    0 <= q <= r /\ r <= t <= f.
Proof.
  apply (X13_synthetic_counts_ordered Sample.fetcher Sample.runtime Sample.offline
           "jack" (synthetic_obj Sample.runtime Sample.offline "jack" 2)).
  simpl. right. right. left. reflexivity.
Defined.

(** ** The chain, request by request *)

Section ChainTraces.

Variable self : TimelineFetcher.
Variable rt : Runtime.
Variable world : World.

(** The attempts of [_get_html], one by one: every attempt but the last
    raised an [HTTPError], and the outcome is that of the last. *)
Lemma retrying_last (n : nat) (s : strategy) (url : string) :
  forall (st st' : state) (r : result string),
    retrying world n s url st = (r, st') ->
    exists k, (1 <= k <= S n)%nat /\
      trace st' = (trace st ++ repeat (Fetch s url) k)%list /\
      requests st' = (requests st + k)%nat /\
      r = net world (requests st + (k - 1)) url /\
      Forall (fun j => exists e, net world j url = Raise e /\ is_http_error e = true)
             (seq (requests st) (k - 1)) /\
      (k = S n \/ match r with Ok _ => True | Raise e => is_http_error e = false end).
Proof.
  induction n as [|n IH]; intros st st' r; cbn [retrying];
    unfold try_except, get_once, lift.
  - destruct (net world (requests st) url) eqn:E; intros H; inversion H; subst;
      exists 1%nat; cbn [repeat Nat.sub seq requests trace]; rewrite Nat.add_0_r;
      repeat split; try lia; try (symmetry; exact E); try apply Forall_nil;
      left; reflexivity.
  - destruct (net world (requests st) url) as [t|e] eqn:E.
    + intros H; inversion H; subst. exists 1%nat.
      cbn [repeat Nat.sub seq requests trace]. rewrite Nat.add_0_r.
      repeat split; try lia; try (symmetry; exact E); apply Forall_nil.
    + destruct (is_http_error e) eqn:He.
      * intros H. apply IH in H as (k & Hk & Ht & Hr & Hres & Hall & Hlast).
        cbn [requests trace] in *.
        exists (S k). repeat split; try lia.
        -- rewrite Ht, <- app_assoc. reflexivity.
        -- rewrite Hres. f_equal. lia.
        -- replace (S k - 1)%nat with (S (k - 1)) by lia. cbn [seq].
           constructor; [eauto|exact Hall].
        -- destruct Hlast as [->|Hlast]; [left; reflexivity|right; exact Hlast].
      * intros H; inversion H; subst. exists 1%nat.
        cbn [repeat Nat.sub seq requests trace]. rewrite Nat.add_0_r.
        repeat split; try lia; try (symmetry; exact E); try apply Forall_nil.
        right. exact He.
Qed.

(** X14.  [_get_html] issues between one and three GETs, all of the same
    URL; every attempt before the last raised an [HTTPError]; what it
    returns or raises is the outcome of the last attempt; and it stops
    before the third attempt only on a response or on an exception that
    is not an [HTTPError]. *)
Theorem X14_get_html_attempts :
  forall (s : strategy) (url : string) (st st' : state) (r : result string),
    _get_html world s url st = (r, st') ->
    exists k, (1 <= k <= 3)%nat /\
      trace st' = (trace st ++ repeat (Fetch s url) k)%list /\
      requests st' = (requests st + k)%nat /\
      r = net world (requests st + (k - 1)) url /\
      Forall (fun j => exists e, net world j url = Raise e /\ is_http_error e = true)
             (seq (requests st) (k - 1)) /\
      (k = 3%nat \/ match r with Ok _ => True | Raise e => is_http_error e = false end).
Proof.
  intros s url st st' r H. unfold _get_html in H. now apply retrying_last in H.
Qed.

Lemma json_strategy_trace (h : string) (st st' : state) (r : result (option (list Post))) :
  json_strategy self rt world h st = (r, st') ->
  exists js,
    trace st' = (trace st ++ js)%list /\
    Forall (fun e => strategy_of e = Json) js /\
    (requests st' <= requests st + 3)%nat.
Proof.
  unfold json_strategy, try_except, bind, lift, emit, ret.
  destruct (_get_html world Json (json_url self h) st) as [[txt|e] st1] eqn:Hg;
    destruct (retrying_trace world _ _ _ _ _ _ Hg) as (k & Hk & Ht & Hr).
  - assert (Hfetch : Forall (fun e => strategy_of e = Json)
                       (repeat (Fetch Json (json_url self h)) k)).
    { apply Forall_forall. intros e He. apply repeat_spec in He. now subst. }
    destruct (json_loads rt txt) as [data|e].
    + cbn [requests trace].
      destruct (_parse_nitter_json self rt world data h) as [cand|e];
        [destruct (nonempty cand)|]; intros H; inversion H; subst;
        cbn [requests trace];
        (exists (repeat (Fetch Json (json_url self h)) k ++ [Parse Json])%list;
         split; [rewrite Ht, <- app_assoc; reflexivity|];
         split; [apply Forall_app; split; [exact Hfetch|repeat constructor]|lia]).
    + intros H; inversion H; subst.
      exists (repeat (Fetch Json (json_url self h)) k).
      split; [exact Ht|]. split; [exact Hfetch|lia].
  - intros H; inversion H; subst.
    exists (repeat (Fetch Json (json_url self h)) k).
    split; [exact Ht|]. split; [|lia].
    apply Forall_forall. intros e' He. apply repeat_spec in He. now subst.
Qed.

Lemma network_strategies_trace (h : string) (st st' : state)
    (r : result (option (list Post))) :
  network_strategies self rt world h st = (r, st') ->
  exists hs js,
    trace st' = (trace st ++ hs ++ js)%list /\
    Forall (fun e => strategy_of e = Html) hs /\
    Forall (fun e => strategy_of e = Json) js /\
    (requests st' <= requests st + 6)%nat.
Proof.
  unfold network_strategies, bind, lift, emit, ret.
  destruct (_client self rt).
  2:{ intros H; inversion H; subst. exists [], []. rewrite app_nil_r.
      repeat split; auto; lia. }
  destruct (_get_html world Html (html_url self h) st) as [[html|e] st1] eqn:Hg;
    destruct (retrying_trace world _ _ _ _ _ _ Hg) as (k & Hk & Ht & Hr).
  2:{ intros H; inversion H; subst.
      exists (repeat (Fetch Html (html_url self h)) k), [].
      rewrite app_nil_r. repeat split; auto; try lia.
      apply Forall_forall. intros e' He. apply repeat_spec in He. now subst. }
  assert (Hfetch : Forall (fun e => strategy_of e = Html)
                     (repeat (Fetch Html (html_url self h)) k ++ [Parse Html])).
  { apply Forall_app; split; [|repeat constructor].
    apply Forall_forall. intros e He. apply repeat_spec in He. now subst. }
  cbn [requests trace].
  destruct (_parse_nitter_html self rt world html h) as [items|e].
  - destruct (nonempty items).
    + intros H; inversion H; subst. cbn [requests trace].
      exists (repeat (Fetch Html (html_url self h)) k ++ [Parse Html])%list, [].
      rewrite app_nil_r, Ht, <- app_assoc. repeat split; auto; lia.
    + intros H. apply json_strategy_trace in H as (js & Htj & Hj & Hrj).
      cbn [requests trace] in *.
      exists (repeat (Fetch Html (html_url self h)) k ++ [Parse Html])%list, js.
      rewrite Htj, Ht, <- !app_assoc. repeat split; auto; lia.
  - intros H; inversion H; subst. cbn [requests trace].
    exists (repeat (Fetch Html (html_url self h)) k ++ [Parse Html])%list, [].
    rewrite app_nil_r, Ht, <- app_assoc. repeat split; auto; lia.
Qed.

(** X15.  A run of the chain does what the HTML strategy does, then what
    the JSON strategy does, then at most one synthetic generation, in
    this order and never going back; and it issues at most six GETs. *)
Theorem X15_chain_runs_strategies_in_order :
  forall (screen_name : string) (st st' : state) (r : result (list Post)),
    fetch_username self rt world screen_name st = (r, st') ->
    exists hs js gs,
      trace st' = (trace st ++ hs ++ js ++ gs)%list /\
      Forall (fun e => strategy_of e = Html) hs /\
      Forall (fun e => strategy_of e = Json) js /\
      (gs = [] \/ gs = [Generate]) /\
      (requests st' <= requests st + 6)%nat.
Proof.
  intros screen_name st st' r.
  unfold fetch_username, bind, try_except, ret, emit.
  destruct (network_strategies self rt world (clean_handle screen_name) st)
    as [[[b|]|e] st1] eqn:Hn;
    destruct (network_strategies_trace _ _ _ _ Hn) as (hs & js & Ht & Hh & Hj & Hr);
    intros H; inversion H; subst; cbn [requests trace]; exists hs, js.
  - exists []. rewrite app_nil_r. repeat split; auto.
  - exists [Generate]. rewrite Ht, <- !app_assoc. repeat split; auto.
  - exists [Generate]. rewrite Ht, <- !app_assoc. repeat split; auto.
Qed.

(** X16.  When the GET of the HTML page fails, the JSON endpoint is never
    asked: the chain goes from the failed attempts straight to the
    synthetic batch. *)
Theorem X16_failed_html_get_skips_json :
  forall (screen_name : string) (st st1 : state) (e : exn),
    _client self rt = Ok tt ->
    _get_html world Html (html_url self (clean_handle screen_name)) st = (Raise e, st1) ->
    exists k, (1 <= k <= 3)%nat /\
      fetch_username self rt world screen_name st =
      (Ok (_synthetic_posts self rt world (clean_handle screen_name)),
       {| requests := (requests st + k)%nat;
          trace := (trace st
                    ++ repeat (Fetch Html (html_url self (clean_handle screen_name))) k
                    ++ [Generate])%list |}).
Proof.
  intros screen_name st st1 e Hc Hg.
  destruct (retrying_trace world _ _ _ _ _ _ Hg) as (k & Hk & Ht & Hr).
  exists k. split; [exact Hk|].
  unfold fetch_username, network_strategies, bind, try_except, lift, ret, emit.
  rewrite Hc, Hg. cbn [requests trace]. rewrite Hr, Ht, <- app_assoc. reflexivity.
Qed.

Lemma slice_to_length {A} (l : list A) (n : Z) :
  0 <= n -> Z.of_nat (List.length (Py.slice_to l n)) <= n.
Proof.
  intros Hn. unfold Py.slice_to.
  destruct (0 <=? n) eqn:E; [|apply Z.leb_gt in E; lia].
  rewrite length_firstn. lia.
Qed.

(** X17.  With [max_posts >= 0] the chain never returns more than
    [max_posts] records, whichever strategy produced them; with
    [max_posts = 0] it returns none. *)
Theorem X17_chain_batch_is_capped :
  forall (screen_name : string) (st st' : state) (batch : list Post),
    0 <= max_posts self ->
    fetch_username self rt world screen_name st = (Ok batch, st') ->
    Z.of_nat (List.length batch) <= max_posts self.
Proof.
  intros screen_name st st' batch Hpos Hf.
  destruct (fetch_username_outcome self rt world screen_name st) as [st2 Hf'].
  rewrite Hf' in Hf. inversion Hf; subst; clear Hf. unfold chain_outcome.
  destruct (network_strategies self rt world (clean_handle screen_name) st)
    as [[[b|]|e] st1] eqn:Hs; cbn [fst];
    try (rewrite synthetic_length; lia).
  destruct (network_strategies_returned _ _ _ _ _ _ _ Hs) as (items & _ & ->).
  now apply slice_to_length.
Qed.

End ChainTraces.

(** ** Failures inside the chain *)

Section ChainErrors.

Variable self : TimelineFetcher.
Variable rt : Runtime.
Variable world : World.

(** Whatever the GET of the first strategy gives, the chain goes on from
    the state it leaves, and returns. *)
Lemma chain_after_get (screen_name : string) (st st1 : state) (r : result string) :
  _client self rt = Ok tt ->
  _get_html world Html (html_url self (clean_handle screen_name)) st = (r, st1) ->
  exists batch st' es,
    fetch_username self rt world screen_name st = (Ok batch, st') /\
    trace st' = (trace st1 ++ es)%list.
Proof.
  intros Hc Hg.
  unfold fetch_username, network_strategies, bind, try_except, lift, ret, emit.
  rewrite Hc, Hg. destruct r as [html|e].
  2:{ exists (_synthetic_posts self rt world (clean_handle screen_name)).
      eexists. exists [Generate]. split; reflexivity. }
  cbn [requests trace].
  destruct (_parse_nitter_html self rt world html (clean_handle screen_name))
    as [items|e].
  2:{ eexists. eexists. exists [Parse Html; Generate].
      split; [reflexivity|]. cbn [trace]. now rewrite <- app_assoc. }
  destruct (nonempty items).
  { eexists. eexists. exists [Parse Html]. split; reflexivity. }
  destruct (json_strategy self rt world (clean_handle screen_name)
              {| requests := requests st1; trace := (trace st1 ++ [Parse Html])%list |})
    as [[[b|]|e] st2] eqn:Hj;
    apply json_strategy_trace in Hj as (js & Ht & _ & _); cbn [trace] in Ht.
  - eexists. eexists. exists ([Parse Html] ++ js)%list.
    split; [reflexivity|]. now rewrite Ht, <- app_assoc.
  - eexists. eexists. exists ([Parse Html] ++ js ++ [Generate])%list.
    split; [reflexivity|]. cbn [trace]. now rewrite Ht, <- !app_assoc.
  - eexists. eexists. exists ([Parse Html] ++ js ++ [Generate])%list.
    split; [reflexivity|]. cbn [trace]. now rewrite Ht, <- !app_assoc.
Qed.

(** C3 (amended).  The chain never raises: whatever happens inside the
    [try] block, [fetch_username] returns a batch, and that batch is the
    synthetic one whenever the network strategies raised or fell through.
    A configuration error is absorbed like any other exception: when the
    client constructor raises, the chain returns the synthetic batch
    without issuing a request; when the GET raises anything that is not
    an [httpx.HTTPError], a malformed base URL for one, that GET is not
    repeated and the chain returns the synthetic batch.  Only an
    [httpx.HTTPError] is retried: the same URL is asked again. *)
Theorem C3_chain_absorbs_every_exception :
  forall (screen_name : string) (st : state),
    let handle := clean_handle screen_name in
    let url := html_url self handle in
    (exists batch st',
       fetch_username self rt world screen_name st = (Ok batch, st') /\
       match fst (network_strategies self rt world handle st) with
       | Ok (Some returned) => batch = returned
       | Ok None | Raise _ => batch = _synthetic_posts self rt world handle
       end) /\
    (forall e,
       _client self rt = Raise e ->
       fetch_username self rt world screen_name st =
       (Ok (_synthetic_posts self rt world handle),
        {| requests := requests st; trace := (trace st ++ [Generate])%list |})) /\
    (forall e,
       _client self rt = Ok tt ->
       net world (requests st) url = Raise e ->
       is_http_error e = false ->
       fetch_username self rt world screen_name st =
       (Ok (_synthetic_posts self rt world handle),
        {| requests := S (requests st);
           trace := (trace st ++ [Fetch Html url; Generate])%list |})) /\
    (forall e,
       _client self rt = Ok tt ->
       net world (requests st) url = Raise e ->
       is_http_error e = true ->
       exists batch st' es,
         fetch_username self rt world screen_name st = (Ok batch, st') /\
         trace st' = (trace st ++ Fetch Html url :: Fetch Html url :: es)%list).
Proof.
  intros screen_name st handle url. split; [|split; [|split]].
  - destruct (fetch_username_outcome self rt world screen_name st) as [st' Hf].
    exists (chain_outcome self rt world screen_name st), st'. split; [exact Hf|].
    unfold chain_outcome. fold handle.
    now destruct (fst (network_strategies self rt world handle st)) as [[b|]|e].
  - intros e Hc. now apply client_error_goes_synthetic with (e := e).
  - intros e Hc Hn He.
    unfold fetch_username, network_strategies, bind, try_except, lift, ret, emit.
    fold handle. fold url.
    rewrite Hc, (get_html_no_retry world Html url st e Hn He).
    cbn [requests trace]. now rewrite <- app_assoc.
  - intros e Hc Hn He.
    destruct (_get_html world Html url st) as [r st1] eqn:Hg.
    destruct (chain_after_get screen_name st st1 r Hc Hg) as (batch & st' & es & Hf & Ht).
    assert (Hg' : retrying world 1 Html url
                    {| requests := S (requests st);
                       trace := (trace st ++ [Fetch Html url])%list |} = (r, st1)).
    { rewrite <- Hg. unfold _get_html.
      change (retrying world 2 Html url st)
        with (try_except (get_once world Html url)
                (fun e => if is_http_error e then retrying world 1 Html url
                          else lift (Raise e)) st).
      unfold try_except, get_once. now rewrite Hn, He. }
    destruct (retrying_trace world _ _ _ _ _ _ Hg') as (k & Hk & Ht1 & _).
    cbn [trace] in Ht1.
    exists batch, st', (repeat (Fetch Html url) (k - 1) ++ es)%list.
    split; [exact Hf|]. rewrite Ht, Ht1.
    destruct k as [|k]; [lia|]. cbn [repeat Nat.sub]. rewrite Nat.sub_0_r.
    rewrite <- !app_assoc. reflexivity.
Qed.

End ChainErrors.

Lemma C3_witness_bad_url :
  fetch_username Sample.fetcher_bad_base Sample.runtime Sample.bad_url "jack" state0 =
  (Ok (_synthetic_posts Sample.fetcher_bad_base Sample.runtime Sample.bad_url "jack"),
   {| requests := 1; trace := [Fetch Html "ht!tp:/jack"; Generate] |}).
Proof.
  exact (proj1 (proj2 (proj2
    (C3_chain_absorbs_every_exception Sample.fetcher_bad_base Sample.runtime
       Sample.bad_url "jack" state0)))
    InvalidURL eq_refl eq_refl eq_refl).
Defined.

(** An [HTTPError] is retried: the flaky host fails once and the same
    URL is asked a second time. *)
Example http_error_is_retried :
  exists batch st' es,
    fetch_username Sample.fetcher Sample.runtime Sample.flaky "@alice" state0
      = (Ok batch, st') /\
    trace st' = (trace state0 ++ Fetch Html "https://nitter.net/alice"
                   :: Fetch Html "https://nitter.net/alice" :: es)%list.
Proof. eexists. eexists. exists [Parse Html]. split; reflexivity. Qed.

Lemma X14_witness_second_attempt :
  exists k, (1 <= k <= 3)%nat /\
    trace (snd (_get_html Sample.flaky Html "https://nitter.net/alice" state0))
      = (trace state0 ++ repeat (Fetch Html "https://nitter.net/alice") k)%list /\
    requests (snd (_get_html Sample.flaky Html "https://nitter.net/alice" state0))
      = (requests state0 + k)%nat /\
    fst (_get_html Sample.flaky Html "https://nitter.net/alice" state0)
      = net Sample.flaky (requests state0 + (k - 1)) "https://nitter.net/alice" /\
    Forall (fun j => exists e, net Sample.flaky j "https://nitter.net/alice" = Raise e /\
                               is_http_error e = true)
           (seq (requests state0) (k - 1)) /\
    (k = 3%nat \/
     match fst (_get_html Sample.flaky Html "https://nitter.net/alice" state0) with
     | Ok _ => True
     | Raise e => is_http_error e = false
     end).
Proof.
  apply (X14_get_html_attempts Sample.flaky Html "https://nitter.net/alice" state0).
  reflexivity.
Defined.

Lemma X15_witness_flaky :
  exists hs js gs,
    trace (snd (fetch_username Sample.fetcher Sample.runtime Sample.flaky "@alice" state0))
      = (trace state0 ++ hs ++ js ++ gs)%list /\
    Forall (fun e => strategy_of e = Html) hs /\
    Forall (fun e => strategy_of e = Json) js /\
    (gs = [] \/ gs = [Generate]) /\
    (requests (snd (fetch_username Sample.fetcher Sample.runtime Sample.flaky
                      "@alice" state0)) <= requests state0 + 6)%nat.
Proof.
  apply (X15_chain_runs_strategies_in_order Sample.fetcher Sample.runtime Sample.flaky
           "@alice" state0 _
           (fst (fetch_username Sample.fetcher Sample.runtime Sample.flaky
                   "@alice" state0))).
  reflexivity.
Defined.

Lemma X16_witness_offline :
  exists k, (1 <= k <= 3)%nat /\
    fetch_username Sample.fetcher Sample.runtime Sample.offline "jack" state0 =
    (Ok (_synthetic_posts Sample.fetcher Sample.runtime Sample.offline
           (clean_handle "jack")),
     {| requests := (requests state0 + k)%nat;
        trace := (trace state0
                  ++ repeat (Fetch Html (html_url Sample.fetcher (clean_handle "jack"))) k
                  ++ [Generate])%list |}).
Proof.
  apply (X16_failed_html_get_skips_json Sample.fetcher Sample.runtime Sample.offline
           "jack" state0
           {| requests := 3;
              trace := repeat (Fetch Html "https://nitter.net/jack") 3 |}
           HTTPError); reflexivity.
Defined.

Lemma X17_witness_offline :
  Z.of_nat (List.length (_synthetic_posts Sample.fetcher Sample.runtime Sample.offline
                           (clean_handle "jack")))
  <= max_posts Sample.fetcher.
Proof.
  apply (X17_chain_batch_is_capped Sample.fetcher Sample.runtime Sample.offline
           "jack" state0
           (snd (fetch_username Sample.fetcher Sample.runtime Sample.offline
                   "jack" state0))).
  - simpl. lia.
  - reflexivity.
Defined.

(** ** The handle *)

Section HandleFacts.
Import PyStr.

Lemma append_assoc (a b c : string) : (a ++ b) ++ c = a ++ (b ++ c).
Proof. induction a as [|x a IH]; cbn [append]; [reflexivity|now rewrite IH]. Qed.

Lemma rev_acc_app (s : string) : forall acc, rev_acc s acc = rev_acc s "" ++ acc.
Proof.
  induction s as [|c s IH]; intros acc; cbn [rev_acc]; [reflexivity|].
  rewrite (IH (String c acc)), (IH (String c "")), append_assoc. reflexivity.
Qed.

Lemma rev_cons (c : ascii) (s : string) : rev (String c s) = rev s ++ String c "".
Proof. unfold rev. cbn [rev_acc]. apply rev_acc_app. Qed.

Lemma rev_app (a b : string) : rev (a ++ b) = rev b ++ rev a.
Proof.
  induction a as [|c a IH]; cbn [append].
  - change (rev "") with "". now rewrite append_empty_r.
  - rewrite !rev_cons, IH, append_assoc. reflexivity.
Qed.

Lemma rev_involutive (s : string) : rev (rev s) = s.
Proof.
  induction s as [|c s IH]; [reflexivity|].
  rewrite rev_cons, rev_app, IH. reflexivity.
Qed.

Lemma forallb_app (p : ascii -> bool) (a b : string) :
  forallb p (a ++ b) = forallb p a && forallb p b.
Proof.
  induction a as [|c a IH]; cbn [append forallb]; [reflexivity|].
  now rewrite IH, andb_assoc.
Qed.

Lemma forallb_rev (p : ascii -> bool) (s : string) :
  forallb p (rev s) = forallb p s.
Proof.
  induction s as [|c s IH]; [reflexivity|].
  rewrite rev_cons, forallb_app, IH. cbn [forallb].
  rewrite andb_true_r. apply andb_comm.
Qed.

(** What [drop_while] removes and what it leaves. *)
Lemma drop_while_spec (f : ascii -> bool) (s : string) :
  exists p,
    s = p ++ drop_while f s /\ forallb f p = true /\
    match drop_while f s with
    | EmptyString => True
    | String c _ => f c = false
    end.
Proof.
  induction s as [|c s (p & Hs & Hp & Hh)]; cbn [drop_while].
  - exists "". repeat split.
  - destruct (f c) eqn:Hc.
    + exists (String c p). cbn [append forallb]. rewrite Hc, Hp, <- Hs. auto.
    + exists "". cbn [append forallb]. auto.
Qed.

Lemma drop_while_keeps (f p : ascii -> bool) (s : string) :
  forallb p s = true -> forallb p (drop_while f s) = true.
Proof.
  intros H. destruct (drop_while_spec f s) as (q & Hs & _ & _).
  rewrite Hs, forallb_app in H. now apply andb_true_iff in H as [_ H].
Qed.

Lemma drop_while_nothing (f : ascii -> bool) (s : string) :
  forallb (fun c => negb (f c)) s = true -> drop_while f s = s.
Proof.
  destruct s as [|c s]; [reflexivity|]. cbn [forallb drop_while].
  intros H. apply andb_true_iff in H as [H _].
  now destruct (f c).
Qed.

Lemma starts_with_space_app (a b : string) :
  starts_with_space (a ++ b) = false -> starts_with_space a = false.
Proof. destruct a; [reflexivity|exact (fun H => H)]. Qed.

(** X18.  The handle the chain uses never begins or ends with white
    space, whatever the caller passes. *)
Theorem X18_clean_handle_has_no_outer_blanks :
  forall (screen_name : string),
    starts_with_space (clean_handle screen_name) = false /\
    ends_with_space (clean_handle screen_name) = false.
Proof.
  intros screen_name. unfold clean_handle, strip, rstrip, lstrip.
  set (u := drop_while is_space (lstrip_char "@" screen_name)).
  set (v := drop_while is_space (rev u)).
  assert (Hu : starts_with_space u = false).
  { unfold u. destruct (drop_while_spec is_space (lstrip_char "@" screen_name))
      as (_ & _ & _ & Hh).
    destruct (drop_while is_space (lstrip_char "@" screen_name)); [reflexivity|exact Hh]. }
  assert (Hv : starts_with_space v = false).
  { unfold v. destruct (drop_while_spec is_space (rev u)) as (_ & _ & _ & Hh).
    destruct (drop_while is_space (rev u)); [reflexivity|exact Hh]. }
  split.
  - destruct (drop_while_spec is_space (rev u)) as (p & Hs & _ & _).
    fold v in Hs.
    assert (Hrev : u = rev v ++ rev p)
      by (rewrite <- rev_app, <- Hs, rev_involutive; reflexivity).
    rewrite Hrev in Hu. exact (starts_with_space_app _ _ Hu).
  - unfold ends_with_space. rewrite rev_involutive. exact Hv.
Qed.

(** X19.  For a handle without white space, the chain uses the handle
    with every leading [@] removed, and nothing else changed: what is
    left does not begin with [@]. *)
Theorem X19_clean_handle_of_blank_free_name :
  forall (screen_name : string),
    blank_free screen_name = true ->
    clean_handle screen_name = lstrip_char "@" screen_name /\
    starts_with_at (clean_handle screen_name) = false.
Proof.
  intros screen_name Hb.
  assert (Ht : blank_free (lstrip_char "@" screen_name) = true)
    by (apply drop_while_keeps; exact Hb).
  assert (Heq : clean_handle screen_name = lstrip_char "@" screen_name).
  { unfold clean_handle, strip, rstrip, lstrip.
    rewrite (drop_while_nothing is_space (lstrip_char "@" screen_name)) by exact Ht.
    rewrite drop_while_nothing; [apply rev_involutive|].
    unfold blank_free in Ht. now rewrite forallb_rev. }
  split; [exact Heq|]. rewrite Heq. unfold lstrip_char.
  destruct (drop_while_spec (Ascii.eqb "@") screen_name) as (_ & _ & _ & Hh).
  destruct (drop_while (Ascii.eqb "@") screen_name); [reflexivity|exact Hh].
Qed.

End HandleFacts.

Lemma X19_witness_two_ats :
  clean_handle "@@JackD" = PyStr.lstrip_char "@" "@@JackD" /\
  starts_with_at (clean_handle "@@JackD") = false.
Proof.
  apply (X19_clean_handle_of_blank_free_name "@@JackD"). reflexivity.
Defined.

(** ** The list of handles *)

Section RunnerFacts.
Import PyStr Runner.

Lemma seen_spec (x : string) (seen : list string) :
  existsb (String.eqb x) seen = true <-> In x seen.
Proof.
  rewrite existsb_exists. split.
  - intros (y & Hy & He). apply String.eqb_eq in He. now subst.
  - intros H. exists x. split; [exact H|apply String.eqb_refl].
Qed.

Lemma fromkeys_in (l : list string) :
  forall seen x, In x (fromkeys seen l) <-> In x l /\ ~ In x seen.
Proof.
  induction l as [|y l IH]; intros seen x; cbn [fromkeys].
  - split; [intros []|intros [[] _]].
  - destruct (existsb (String.eqb y) seen) eqn:E.
    + apply seen_spec in E. rewrite IH. split.
      * intros [H1 H2]. split; [right; exact H1|exact H2].
      * intros [[<-|H1] H2]; [contradiction|auto].
    + assert (Hy : ~ In y seen).
      { intros H. apply seen_spec in H. congruence. }
      cbn [In]. rewrite IH. cbn [In]. split.
      * intros [<-|[H1 H2]]; [auto|]. split; [right; exact H1|tauto].
      * intros [[<-|H1] H2]; [left; reflexivity|].
        destruct (String.eqb_spec y x) as [->|Hne]; [left; reflexivity|].
        right. split; [exact H1|]. intros [H|H]; [congruence|contradiction].
Qed.

Lemma fromkeys_nodup (l : list string) : forall seen, NoDup (fromkeys seen l).
Proof.
  induction l as [|y l IH]; intros seen; cbn [fromkeys]; [constructor|].
  destruct (existsb (String.eqb y) seen); [apply IH|].
  constructor; [|apply IH].
  rewrite fromkeys_in. intros [_ H]. apply H. left. reflexivity.
Qed.

Lemma dedupe_nonempty (l : list string) :
  nonempty l = true -> nonempty (dedupe l) = true.
Proof. destruct l; [discriminate|reflexivity]. Qed.

Lemma dedupe_in (l : list string) (x : string) : In x (dedupe l) <-> In x l.
Proof. unfold dedupe. rewrite fromkeys_in. cbn [In]. tauto. Qed.

(** X20.  [load_usernames] never returns an empty list: when nothing
    usable comes from the command line or from the inputs file it falls
    back to built-in names.  It raises only when the command line gives
    no name and reading the inputs file raises. *)
Theorem X20_load_usernames_never_empty :
  forall (args : list string) (inputs : option (result string)),
    match load_usernames args inputs with
    | Ok names => nonempty names = true
    | Raise e => inputs = Some (Raise e) /\ flat_map arg_names args = []
    end.
Proof.
  intros args inputs. unfold load_usernames.
  destruct (nonempty (flat_map arg_names args)) eqn:Hc.
  - now apply dedupe_nonempty.
  - destruct inputs as [[content|e]|]; [|split|reflexivity].
    + apply dedupe_nonempty.
      now destruct (nonempty (flat_map line_names (splitlines content))) eqn:E.
    + reflexivity.
    + now destruct (flat_map arg_names args).
Qed.

(** X21.  The list [load_usernames] returns holds no name twice. *)
Theorem X21_load_usernames_no_duplicates :
  forall (args : list string) (inputs : option (result string)) (names : list string),
    load_usernames args inputs = Ok names ->
    NoDup names.
Proof.
  intros args inputs names. unfold load_usernames.
  destruct (nonempty (flat_map arg_names args)).
  - intros H; inversion H; subst. apply fromkeys_nodup.
  - destruct inputs as [[content|e]|]; [| discriminate |].
    + intros H; inversion H; subst. apply fromkeys_nodup.
    + intros H; inversion H; subst. unfold sample_accounts.
      repeat constructor; cbn [In]; intros H'; repeat destruct H' as [H'|H'];
        try discriminate H'; exact H'.
Qed.

Lemma lstrip_fixed (s : string) :
  starts_with_space s = false -> drop_while is_space s = s.
Proof. destruct s as [|c s]; [reflexivity|]. cbn. now intros ->. Qed.

Lemma strip_fixed (s : string) :
  starts_with_space s = false -> ends_with_space s = false -> strip s = s.
Proof.
  intros H1 H2. unfold strip, lstrip, rstrip.
  rewrite (lstrip_fixed s H1), (lstrip_fixed (rev s) H2). apply rev_involutive.
Qed.

Lemma strip_outer (s : string) :
  starts_with_space (strip s) = false /\ ends_with_space (strip s) = false.
Proof.
  unfold strip, rstrip, lstrip.
  set (u := drop_while is_space s). set (v := drop_while is_space (rev u)).
  assert (Hu : starts_with_space u = false).
  { unfold u. destruct (drop_while_spec is_space s) as (_ & _ & _ & Hh).
    destruct (drop_while is_space s); [reflexivity|exact Hh]. }
  assert (Hv : starts_with_space v = false).
  { unfold v. destruct (drop_while_spec is_space (rev u)) as (_ & _ & _ & Hh).
    destruct (drop_while is_space (rev u)); [reflexivity|exact Hh]. }
  split.
  - destruct (drop_while_spec is_space (rev u)) as (p & Hs & _ & _). fold v in Hs.
    assert (Hrev : u = rev v ++ rev p)
      by (rewrite <- rev_app, <- Hs, rev_involutive; reflexivity).
    rewrite Hrev in Hu. exact (starts_with_space_app _ _ Hu).
  - unfold ends_with_space. rewrite rev_involutive. exact Hv.
Qed.

Lemma strip_idempotent (s : string) : strip (strip s) = strip s.
Proof. destruct (strip_outer s) as [H1 H2]. now apply strip_fixed. Qed.

Lemma arg_names_clean (a : string) : Forall clean_name (arg_names a).
Proof.
  unfold arg_names. apply Forall_forall. intros n Hn.
  apply in_map_iff in Hn as (p & <- & Hp). apply filter_In in Hp as [_ Hp].
  split; [now apply negb_true_iff in Hp|apply strip_idempotent].
Qed.

Lemma line_names_clean (line : string) : Forall clean_name (line_names line).
Proof.
  unfold line_names. cbv zeta.
  destruct (is_empty (strip line) || String.prefix "#" (strip line)) eqn:E;
    [constructor|].
  apply orb_false_iff in E as [E _].
  constructor; [|constructor]. split; [exact E|apply strip_idempotent].
Qed.

Lemma flat_map_forall {A B} (P : B -> Prop) (f : A -> list B) (l : list A) :
  (forall a, Forall P (f a)) -> Forall P (flat_map f l).
Proof.
  intros Hf. induction l as [|a l IH]; cbn [flat_map]; [constructor|].
  apply Forall_app. split; [apply Hf|exact IH].
Qed.

Lemma dedupe_forall (P : string -> Prop) (l : list string) :
  Forall P l -> Forall P (dedupe l).
Proof.
  rewrite !Forall_forall. intros H x Hx. apply H. now apply dedupe_in.
Qed.

(** X22.  Every name [load_usernames] returns is non-empty and carries no
    white space at either end, whether it comes from the command line,
    from the inputs file or from the built-in names. *)
Theorem X22_load_usernames_names_are_clean :
  forall (args : list string) (inputs : option (result string)) (names : list string),
    load_usernames args inputs = Ok names ->
    Forall (fun n => is_empty n = false /\ strip n = n) names.
Proof.
  intros args inputs names. unfold load_usernames.
  destruct (nonempty (flat_map arg_names args)).
  - intros H; inversion H; subst.
    apply (dedupe_forall clean_name), flat_map_forall, arg_names_clean.
  - destruct inputs as [[content|e]|]; [| discriminate |].
    + intros H; inversion H; subst. apply (dedupe_forall clean_name).
      destruct (nonempty (flat_map line_names (splitlines content))).
      * apply flat_map_forall, line_names_clean.
      * constructor; [split; reflexivity|constructor].
    + intros H; inversion H; subst. unfold sample_accounts.
      repeat constructor.
Qed.

End RunnerFacts.

Lemma X21_witness_command_line :
  NoDup ["@jack"; "Twitter"; "jack"].
Proof.
  apply (X21_load_usernames_no_duplicates ["@jack, Twitter ,,jack"; "@jack"] None).
  reflexivity.
Defined.

Lemma X22_witness_command_line :
  Forall (fun n => PyStr.is_empty n = false /\ PyStr.strip n = n)
         ["@jack"; "Twitter"; "jack"].
Proof.
  apply (X22_load_usernames_names_are_clean ["@jack, Twitter ,,jack"; "@jack"] None).
  reflexivity.
Defined.

(** ** The admission gate: progress *)

Module CoordinatorProgress.
Import Coordinator.

Lemma count_nonneg (f : phase -> bool) (l : list phase) : 0 <= count f l.
Proof.
  induction l as [|p l IH]; cbn [count]; [lia|]. destruct (f p); lia.
Qed.

Lemma running_somewhere (l : list phase) :
  0 < count is_running l ->
  exists i b, nth_error l i = Some (Running b).
Proof.
  induction l as [|p l IH]; cbn [count]; [lia|].
  destruct p as [|b|]; cbn [is_running].
  - intros H. destruct IH as (i & b & Hi); [lia|]. exists (S i), b. exact Hi.
  - intros _. exists 0%nat, b. reflexivity.
  - intros H. destruct IH as (i & b & Hi); [lia|]. exists (S i), b. exact Hi.
Qed.

Lemma running_can_step (s : sched) (i : nat) (b : bool) :
  nth_error (tasks s) i = Some (Running b) -> exists s', step s s'.
Proof.
  intros H. destruct b.
  - eexists. apply (step_got s i H).
  - eexists. apply (step_get s i H).
Qed.

Lemma init_all_waiting (usernames : list string) (i : nat) (p : phase) :
  nth_error (map (fun _ : string => Waiting) usernames) i = Some p -> p = Waiting.
Proof.
  rewrite nth_error_map. destruct (nth_error usernames i); cbn [option_map].
  - intros H; inversion H; reflexivity.
  - discriminate.
Qed.

End CoordinatorProgress.

(** X23.  With a semaphore of size at least one the coordinator cannot
    get stuck: in every state it can reach, as long as some handle's task
    has not finished, some task can take a step. *)
Theorem X23_coordinator_makes_progress :
  forall (concurrency : Z) (usernames : list string) (s : Coordinator.sched)
         (i : nat) (p : Coordinator.phase),
    1 <= concurrency ->
    Coordinator.reachable (Coordinator.init concurrency usernames) s ->
    nth_error (Coordinator.tasks s) i = Some p ->
    p <> Coordinator.Finished ->
    exists s', Coordinator.step s s'.
Proof.
  intros concurrency usernames s i p Hn Hr Hi Hp.
  destruct (CoordinatorFacts.gate_invariant concurrency usernames s ltac:(lia) Hr)
    as [H0 H1].
  destruct p as [|b|]; [| |contradiction].
  - destruct (Z.eq_dec (Coordinator.chains_running s) 0) as [Hz|Hz].
    + eexists. apply (Coordinator.step_acquire s i Hi). lia.
    + pose proof (CoordinatorProgress.count_nonneg Coordinator.is_running
                    (Coordinator.tasks s)) as Hc.
      destruct (CoordinatorProgress.running_somewhere (Coordinator.tasks s))
        as (j & b & Hj).
      * unfold Coordinator.chains_running in Hz. lia.
      * exact (CoordinatorProgress.running_can_step s j b Hj).
  - exact (CoordinatorProgress.running_can_step s i b Hi).
Qed.

Lemma X23_witness_one_slot :
  exists s',
    Coordinator.step
      {| Coordinator.sem := 0;
         Coordinator.tasks := [Coordinator.Running false; Coordinator.Waiting] |} s'.
Proof.
  apply (X23_coordinator_makes_progress 1 ["jack"; "Twitter"]
           {| Coordinator.sem := 0;
              Coordinator.tasks := [Coordinator.Running false; Coordinator.Waiting] |}
           1 Coordinator.Waiting).
  - lia.
  - eapply Coordinator.reach_step.
    + apply Coordinator.reach_init.
    + exact (Coordinator.step_acquire
               (Coordinator.init 1 ["jack"; "Twitter"]) 0 eq_refl eq_refl).
  - reflexivity.
  - discriminate.
Defined.

(** X24.  With a semaphore of size zero no handle is ever admitted: the
    coordinator stays in its initial state, every task waiting, so
    [fetch_all] does not return. *)
Theorem X24_zero_concurrency_admits_nobody :
  forall (usernames : list string) (s : Coordinator.sched),
    Coordinator.reachable (Coordinator.init 0 usernames) s ->
    s = Coordinator.init 0 usernames.
Proof.
  intros usernames s Hr. induction Hr as [|s s' Hr IH Hstep]; [reflexivity|].
  subst s. exfalso.
  inversion Hstep as [s i Hw Hpos|s i Hw|s i Hw|s i Hw]; subst;
    cbn [Coordinator.init Coordinator.sem Coordinator.tasks] in *;
    try lia;
    apply CoordinatorProgress.init_all_waiting in Hw; discriminate Hw.
Qed.

Lemma X24_witness_initial_state :
  Coordinator.init 0 ["jack"] = Coordinator.init 0 ["jack"].
Proof.
  apply (X24_zero_concurrency_admits_nobody ["jack"]).
  apply Coordinator.reach_init.
Defined.

(** ** The exporter and the aggregation *)

Section ExporterFacts.

Variable A : Type.
Variable dumps : A -> string.

Lemma lines_lf_line (l rest : string) :
  Exporter.has_lf l = false ->
  Exporter.lines_lf (l ++ Exporter.newline ++ rest) = l :: Exporter.lines_lf rest.
Proof.
  unfold Exporter.has_lf. intros H. apply negb_false_iff in H.
  induction l as [|c l IH]; [reflexivity|].
  rewrite forallb_cons in H. apply andb_true_iff in H as [Hc Hl].
  apply negb_true_iff in Hc.
  cbn [append Exporter.lines_lf]. rewrite Hc, (IH Hl). reflexivity.
Qed.

(** X25.  The NDJSON file can be read back line by line: when no
    serialised record contains a line feed, the lines of the text
    [_write_ndjson] writes are the serialised records, one per record and
    in order. *)
Theorem X25_ndjson_lines_are_the_records :
  forall (items : list A),
    Forall (fun obj => Exporter.has_lf (dumps obj) = false) items ->
    Exporter.lines_lf (Exporter._write_ndjson A dumps items) = map dumps items.
Proof.
  induction items as [|obj items IH]; intros H; [reflexivity|].
  inversion H as [|? ? Hobj Hrest]; subst.
  cbn [Exporter._write_ndjson map].
  rewrite append_assoc, lines_lf_line by exact Hobj.
  now rewrite IH.
Qed.

End ExporterFacts.

Lemma X25_witness_two_records :
  Exporter.lines_lf (Exporter._write_ndjson string (fun s => s) ["{}"; "[1]"])
  = map (fun s => s) ["{}"; "[1]"].
Proof.
  apply (X25_ndjson_lines_are_the_records string (fun s => s) ["{}"; "[1]"]).
  repeat constructor.
Defined.

Module GatherFacts.
Import Coordinator.







End GatherFacts.

Section AggregationFacts.

Variable self : TimelineFetcher.
Variable rt : Runtime.







End AggregationFacts.

